(** * machine-controller: the DigitalOcean provider and the SSH keypair secret

    A shallow embedding of [pkg/ssh/configmap.go] and of the DigitalOcean
    cloud provider (package [digitalocean]).

    Conventions:
    - a Go function returning [(v, err)] returns a pair whose second
      component is [option error] ([None] is [nil]);
    - a pointer that may be [nil] is an [option]; dereferencing [None]
      panics, which an [outcome] records ([Panics]);
    - calls to a remote API thread an explicit state and append to a trace
      of the requests issued, so that the number and the kind of the
      requests a function makes can be stated;
    - functions of libraries the code links against (encoding/json,
      encoding/pem, crypto/x509, golang.org/x/crypto/ssh) are fields of the
      record [Libs]; the general results hold for every such record, and
      the results evaluated on a concrete input use the test doubles
      [fakeLibs];
    - [wait.Poll] of k8s.io/apimachinery is written out over a clock that
      is part of the state. *)

From Stdlib Require Import ZArith String Ascii DecimalString DecimalPos DecimalZ.
From Stdlib.Strings Require Import Byte.
From stdpp Require Import base option list strings gmap.

Local Open Scope string_scope.
Local Open Scope list_scope.
Local Open Scope Z_scope.

Abbreviation bytes := (list byte).

(** ** Errors *)

(** [metav1.StatusReason], the reasons the code distinguishes. *)
Inductive StatusReason :=
| StatusReasonNotFound
| StatusReasonAlreadyExists
| StatusReasonOther (reason : string).

(** Go [error] values.  [Errorf] keeps the format string and the arguments
    of [fmt.Errorf] apart instead of rendering the message. *)
Inductive error :=
| errorString (msg : string)                    (* errors.New *)
| Errorf (format : string) (args : list fmtArg) (* fmt.Errorf *)
| ErrWaitTimeout                                (* wait.ErrWaitTimeout *)
| InstanceNotFoundErr                           (* cloudprovidererrors *)
| ErrOSNotSupported                             (* providerconfig *)
| StatusError (reason : StatusReason)           (* k8s.io/apimachinery api errors *)
| ErrorResponse (StatusCode : Z)                (* godo.ErrorResponse *)
| transportError (msg : string)                 (* any other library error *)
with fmtArg :=
| FmtString (s : string)
| FmtInt (n : Z)
| FmtError (e : error).

(** [errors.IsNotFound] of k8s.io/apimachinery: the reason of a status
    error is NotFound. *)
Definition IsNotFound (err : error) : bool :=
  match err with
  | StatusError StatusReasonNotFound => true
  | _ => false
  end.

(** [err == cloudprovidererrors.InstanceNotFoundErr] *)
Definition isInstanceNotFoundErr (err : error) : bool :=
  match err with
  | InstanceNotFoundErr => true
  | _ => false
  end.

(** ** Computations that may panic, over an explicit state *)

Inductive outcome (A : Type) :=
| Returns (a : A)
| Panics (reason : string).
Arguments Returns {A} a.
Arguments Panics {A} reason.

Definition Go (S A : Type) : Type := S -> outcome A * S.

Definition ret {S A} (a : A) : Go S A := fun s => (Returns a, s).

Definition bind {S A B} (m : Go S A) (k : A -> Go S B) : Go S B :=
  fun s =>
    match m s with
    | (Returns a, s') => k a s'
    | (Panics r, s') => (Panics r, s')
    end.

Definition panic {S A} (reason : string) : Go S A := fun s => (Panics reason, s).

Definition nilDereference : string :=
  "invalid memory address or nil pointer dereference".

(** Reading through a pointer. *)
Definition deref {S A} (p : option A) : Go S A :=
  match p with
  | Some a => ret a
  | None => panic nilDereference
  end.

Notation "'let*' p ':=' m 'in' k" := (bind m (fun p => k))
  (at level 10, p pattern, m at level 100, k at level 200, only parsing).

(** ** Byte strings *)

Fixpoint bytes_eqb (a b : bytes) : bool :=
  match a, b with
  | [], [] => true
  | x :: a', y :: b' => Byte.eqb x y && bytes_eqb a' b'
  | _, _ => false
  end.

(** [bytes.HasPrefix] *)
Fixpoint HasPrefix (s prefix : bytes) : bool :=
  match prefix, s with
  | [], _ => true
  | p :: prefix', x :: s' => Byte.eqb p x && HasPrefix s' prefix'
  | _ :: _, [] => false
  end.

(** [bytes.Index(s, sep) >= 0]: [sep] occurs in [s]. *)
Fixpoint Contains (s sep : bytes) : bool :=
  HasPrefix s sep ||
  match s with
  | [] => false
  | _ :: s' => Contains s' sep
  end.

(** ** Data shared by the two packages *)

(** [rsa.PublicKey] and [rsa.PrivateKey] *)
Record rsa_PublicKey := { rsa_N : Z; rsa_E : Z }.
Record rsa_PrivateKey := {
  rsa_Public : rsa_PublicKey;
  rsa_D : Z;
  rsa_Primes : list Z }.

(** [pem.Block] *)
Record pem_Block := {
  pem_Type : string;
  pem_Headers : gmap string string;
  pem_Bytes : bytes }.

(** [providerconfig.Config], the envelope of a machine's provider
    configuration. *)
Record providerconfig_Config := {
  pc_CloudProvider : string;
  pc_CloudProviderSpec : bytes; (* runtime.RawExtension.Raw *)
  pc_OperatingSystem : string }.

(** The DigitalOcean payload of the envelope. *)
Record config := {
  Token : string;
  Region : string;
  Size : string;
  Backups : bool;
  IPv6 : bool;
  PrivateNetworking : bool;
  Tags : list string }.

(** Library functions the two packages call.  [json_Unmarshal_*] return the
    decoded struct together with the error: like [json.Unmarshal], they may
    have filled the struct in part when they report an error. *)
Record Libs := {
  (* encoding/json *)
  json_Unmarshal_Config : bytes -> providerconfig_Config * option error;
  json_Unmarshal_config : bytes -> config * option error;
  (* providerconfig *)
  OperatingSystemUbuntu : string;
  OperatingSystemCoreos : string;
  (* encoding/pem and crypto/x509 *)
  pem_Encode : pem_Block -> bytes * option error;
  pem_decodeArmoured : bytes -> option pem_Block;
  x509_MarshalPKCS1PrivateKey : rsa_PrivateKey -> bytes;
  x509_ParsePKCS1PrivateKey : bytes -> option rsa_PrivateKey * option error;
  (* NewPrivateKey of package ssh: what the key generator yields in this run *)
  NewPrivateKey : option rsa_PrivateKey * option error;
  (* golang.org/x/crypto/ssh; an ssh.PublicKey wraps the RSA key *)
  ssh_NewPublicKey : rsa_PublicKey -> option rsa_PublicKey * option error;
  ssh_FingerprintLegacyMD5 : rsa_PublicKey -> string;
  ssh_MarshalAuthorizedKey : rsa_PublicKey -> bytes }.

(** * Package ssh: the keypair secret ([pkg/ssh/configmap.go]) *)

Module ssh.

Definition privateKeyDataIndex : string := "id_rsa".
Definition secretName : string := "machine-controller-ssh-key".
(** [metav1.NamespaceSystem] and [v1.SecretTypeOpaque] *)
Definition NamespaceSystem : string := "kube-system".
Definition SecretTypeOpaque : string := "Opaque".

(** [v1.Secret], the fields the package touches. *)
Record Secret := {
  Name : string;
  Namespace : string;
  Type_ : string;
  Data : gmap string bytes }.

(** [client.CoreV1().Secrets(namespace)]: an interface, so the package is
    embedded over any implementation of it, with state [St]. *)
Record SecretInterface (St : Type) := {
  secrets_Get : string -> string -> St -> (option Secret * option error) * St;
  secrets_Create : string -> Secret -> St -> (option Secret * option error) * St }.
Arguments secrets_Get {St} _ _ _ _.
Arguments secrets_Create {St} _ _ _ _.

(** The requests sent to the secret store. *)
Inductive Request :=
| GetSecret (namespace name : string)
| CreateSecret (namespace : string) (secret : Secret).

Record World (St : Type) := {
  store : St;
  requests : list Request }.
Arguments store {St} _.
Arguments requests {St} _.

Section Package.
Context (L : Libs) {St : Type} (client : SecretInterface St).

Definition Get (namespace name : string)
  : Go (World St) (option Secret * option error) :=
  fun w =>
    let '(r, st) := secrets_Get client namespace name (store w) in
    (Returns r,
     {| store := st; requests := requests w ++ [GetSecret namespace name] |}).

Definition Create (namespace : string) (secret : Secret)
  : Go (World St) (option Secret * option error) :=
  fun w =>
    let '(r, st) := secrets_Create client namespace secret (store w) in
    (Returns r,
     {| store := st;
        requests := requests w ++ [CreateSecret namespace secret] |}).

(** [pem.Decode] of encoding/pem: without a line that starts with
    [-----BEGIN ] there is no block and the result is [nil]; otherwise
    the armoured text is parsed ([pem_decodeArmoured]). *)
Definition pemStart : bytes := list_byte_of_string (String "010" "-----BEGIN ").

Definition pem_Decode (data : bytes) : option pem_Block :=
  if HasPrefix data (tail pemStart) then pem_decodeArmoured L data
  else if Contains data pemStart then pem_decodeArmoured L data
  else None.

Definition keyFromSecret {S : Type} (secret : option Secret)
  : Go S (option rsa_PrivateKey * option error) :=
  let* sec := deref secret in
  match Data sec !! privateKeyDataIndex with
  | None =>
      ret (None,
           Some (Errorf "key data not found in secret '%s/%s' (secret.data['%s']). remove it and a new one will be created"
                        [FmtString (Namespace sec); FmtString (Name sec);
                         FmtString privateKeyDataIndex]))
  | Some b =>
      let decoded := pem_Decode b in
      let* blk := deref decoded in
      let '(pk, err) := x509_ParsePKCS1PrivateKey L (pem_Bytes blk) in
      match err with
      | Some e =>
          ret (None, Some (Errorf "failed to parse private key: %v" [FmtError e]))
      | None => ret (pk, None)
      end
  end.

Definition EnsureSSHKeypairSecret
  : Go (World St) (option rsa_PrivateKey * option error) :=
  let* (secret, err) := Get NamespaceSystem secretName in
  match err with
  | Some e =>
      if IsNotFound e then
        let '(pk, err) := NewPrivateKey L in
        match err with
        | Some e =>
            ret (None, Some (Errorf "failed to generate ssh keypair: %v" [FmtError e]))
        | None =>
            let* key := deref pk in
            let privateKeyPEM :=
              {| pem_Type := "RSA PRIVATE KEY"; pem_Headers := ∅;
                 pem_Bytes := x509_MarshalPKCS1PrivateKey L key |} in
            let '(privBuf, err) := pem_Encode L privateKeyPEM in
            match err with
            | Some e => ret (None, Some e)
            | None =>
                let secret :=
                  {| Name := secretName; Namespace := "";
                     Type_ := SecretTypeOpaque;
                     Data := {[ privateKeyDataIndex := privBuf ]} |} in
                let* (_, err) := Create NamespaceSystem secret in
                match err with
                | Some e => ret (None, Some e)
                | None => ret (pk, None)
                end
            end
        end
      else ret (None, Some e)
  | None => keyFromSecret secret
  end.

End Package.

(** ** An in-memory secret store shared with other callers

    [objects] are the stored secrets by namespace and name.  Other callers
    write to the same store: [rivals] lists, request by request, the secrets
    they create just before the next request of this caller is served. *)
Record MemStore := {
  objects : gmap (string * string) Secret;
  rivals : list (list (string * Secret)) }.

Definition inNamespace (namespace : string) (s : Secret) : Secret :=
  {| Name := Name s; Namespace := namespace; Type_ := Type_ s; Data := Data s |}.

(** Create-if-absent, the store's only way to add a secret. *)
Definition createObject (o : gmap (string * string) Secret)
    (r : string * Secret) : gmap (string * string) Secret :=
  match o !! (r.1, Name r.2) with
  | Some _ => o
  | None => <[(r.1, Name r.2) := inNamespace r.1 r.2]> o
  end.

Definition serveRivals (st : MemStore) : MemStore :=
  match rivals st with
  | [] => st
  | batch :: later =>
      {| objects := foldl createObject (objects st) batch; rivals := later |}
  end.

Definition memGet (namespace name : string) (st : MemStore)
  : (option Secret * option error) * MemStore :=
  let st := serveRivals st in
  match objects st !! (namespace, name) with
  | Some s => ((Some s, None), st)
  | None => ((None, Some (StatusError StatusReasonNotFound)), st)
  end.

Definition memCreate (namespace : string) (s : Secret) (st : MemStore)
  : (option Secret * option error) * MemStore :=
  let st := serveRivals st in
  match objects st !! (namespace, Name s) with
  | Some _ => ((None, Some (StatusError StatusReasonAlreadyExists)), st)
  | None =>
      ((Some (inNamespace namespace s), None),
       {| objects := <[(namespace, Name s) := inNamespace namespace s]> (objects st);
          rivals := rivals st |})
  end.

Definition memSecrets : SecretInterface MemStore :=
  {| secrets_Get := memGet; secrets_Create := memCreate |}.

End ssh.

(** * strconv and time *)

(** Go's [int] is 64 bits wide on the platforms the controller is built for. *)
Definition minInt : Z := - 2 ^ 63.
Definition maxInt : Z := 2 ^ 63 - 1.
Definition isInt (n : Z) : Prop := minInt <= n <= maxInt.

(** [strconv.Itoa] *)
Definition Itoa (n : Z) : string := NilZero.string_of_int (Z.to_int n).

(** [strconv.Atoi]: an optional sign followed by decimal digits.  A syntax
    error yields 0, a value out of range the nearest bound, each with an
    error. *)
Definition Atoi (s : string) : Z * option error :=
  let parsed :=
    match s with
    | String "+" digits => option_map Z.of_uint (NilZero.uint_of_string digits)
    | _ => option_map Z.of_int (NilZero.int_of_string s)
    end in
  match parsed with
  | None => (0, Some (errorString "strconv.Atoi: invalid syntax"))
  | Some n =>
      if n <? minInt then (minInt, Some (errorString "strconv.Atoi: value out of range"))
      else if maxInt <? n then (maxInt, Some (errorString "strconv.Atoi: value out of range"))
      else (n, None)
  end.

(** [time.Duration] counts nanoseconds. *)
Definition Second : Z := 1000000000.
Definition Minute : Z := 60 * Second.

(** * Package digitalocean *)

Module digitalocean.

(** ** godo, the DigitalOcean client library: data *)

Record godo_Region := {
  Region_Slug : string;
  Region_Name : string;
  Region_Available : bool }.

Record godo_Size := {
  Size_Slug : string;
  Size_Available : bool;
  Size_Regions : list string }.

Record godo_Key := {
  Key_ID : Z;
  Key_Name : string;
  Key_Fingerprint : string;
  Key_PublicKey : string }.

Record godo_KeyCreateRequest := {
  KeyCreate_Name : string;
  KeyCreate_PublicKey : string }.

(** [godo.Response] embeds the [http.Response]. *)
Record godo_Response := { StatusCode : Z }.
Definition StatusNotFound : Z := 404.

Record godo_Networks := {
  V4 : list string;  (* the IPAddress of each NetworkV4 *)
  V6 : list string }.

(** [godo.Droplet]; its [Networks] field is a pointer, which may be nil. *)
Record godo_Droplet := {
  Droplet_ID : Z;
  Droplet_Name : string;
  Droplet_Status : string;
  Droplet_Tags : list string;
  Droplet_Networks : option godo_Networks }.

Record godo_DropletCreateRequest := {
  Create_Name : string;
  Create_Region : string;
  Create_Size : string;
  Create_Image : string;          (* DropletCreateImage.Slug *)
  Create_SSHKeys : list string;   (* DropletCreateSSHKey.Fingerprint *)
  Create_Backups : bool;
  Create_IPv6 : bool;
  Create_PrivateNetworking : bool;
  Create_UserData : string;
  Create_Tags : list string }.

Record godo_ListOptions := { PerPage : Z }.

(** ** godo: the services, interfaces over a backend state [B] *)

Record KeysService (B : Type) := {
  Keys_GetByFingerprint :
    string -> B -> (option godo_Key * option godo_Response * option error) * B;
  Keys_Create :
    godo_KeyCreateRequest -> B ->
    (option godo_Key * option godo_Response * option error) * B }.
Arguments Keys_GetByFingerprint {B} _ _ _.
Arguments Keys_Create {B} _ _ _.

Record DropletsService (B : Type) := {
  Droplets_List : godo_ListOptions -> B -> (list godo_Droplet * option error) * B;
  Droplets_Get : Z -> B -> (option godo_Droplet * option error) * B;
  Droplets_Create :
    godo_DropletCreateRequest -> B -> (option godo_Droplet * option error) * B;
  Droplets_Delete : Z -> B -> option error * B }.
Arguments Droplets_List {B} _ _ _.
Arguments Droplets_Get {B} _ _ _.
Arguments Droplets_Create {B} _ _ _.
Arguments Droplets_Delete {B} _ _ _.

Record godo_Client (B : Type) := {
  Keys : KeysService B;
  Droplets : DropletsService B;
  Regions_List : godo_ListOptions -> B -> (list godo_Region * option error) * B;
  Sizes_List : godo_ListOptions -> B -> (list godo_Size * option error) * B }.
Arguments Keys {B} _.
Arguments Droplets {B} _.
Arguments Regions_List {B} _ _ _.
Arguments Sizes_List {B} _ _ _.

(** The requests sent to the backend. *)
Inductive Call :=
| RegionsList
| SizesList
| KeysGetByFingerprint (fingerprint : string)
| KeysCreate (request : godo_KeyCreateRequest)
| DropletsList
| DropletsGet (id : Z)
| DropletsCreate (request : godo_DropletCreateRequest)
| DropletsDelete (id : Z).

(** Requests that only read the backend's state. *)
Definition readOnly (c : Call) : bool :=
  match c with
  | RegionsList | SizesList | KeysGetByFingerprint _
  | DropletsList | DropletsGet _ => true
  | KeysCreate _ | DropletsCreate _ | DropletsDelete _ => false
  end.

(** The world of the provider: the backend, the clock (a [time.Duration]
    since the start) and the requests issued so far, oldest first. *)
Record World (B : Type) := {
  backend : B;
  now : Z;
  trace : list Call }.
Arguments backend {B} _.
Arguments now {B} _.
Arguments trace {B} _.

(** ** The machine object *)

Record MachineSpec := {
  Spec_Name : string;
  ProviderConfig : bytes }. (* runtime.RawExtension.Raw *)

Record Machine := {
  UID : string;
  Spec : MachineSpec }.

(** [instance.State] *)
Inductive State :=
| InstanceStarting
| InstanceRunning
| InstanceStopped.

Definition createCheckPeriod : Z := 10 * Second.
Definition createCheckTimeout : Z := 5 * Minute.
Definition createCheckFailedWaitPeriod : Z := 10 * Second.

(** [doInstance]: a pointer to a droplet. *)
Record doInstance := { droplet : option godo_Droplet }.

Definition zeroDroplet : godo_Droplet :=
  {| Droplet_ID := 0; Droplet_Name := ""; Droplet_Status := "";
     Droplet_Tags := []; Droplet_Networks := None |}.

(** [sets.NewString(tags...).Has(s)] *)
Definition NewString (items : list string) : gset string := list_to_set items.
Definition Has (s : gset string) (item : string) : bool := bool_decide (item ∈ s).

Section Provider.
Context (L : Libs) {B : Type} (getClient : string -> godo_Client B).

(** *** Instrumented requests *)

Definition request {A} (c : Call) (f : B -> A * B) : Go (World B) A :=
  fun w =>
    let '(r, b) := f (backend w) in
    (Returns r, {| backend := b; now := now w; trace := trace w ++ [c] |}).

(** [time.Sleep] *)
Definition Sleep (d : Z) : Go (World B) unit :=
  fun w => (Returns tt,
            {| backend := backend w; now := now w + d; trace := trace w |}).

Definition clock : Go (World B) Z := fun w => (Returns (now w), w).

(** Blocking until the instant [t] (no effect when [t] has passed). *)
Definition sleepUntil (t : Z) : Go (World B) unit :=
  fun w => (Returns tt,
            {| backend := backend w; now := Z.max (now w) t; trace := trace w |}).

(** *** [wait.Poll] of k8s.io/apimachinery

    [wait.Poll(interval, timeout, condition)] runs [condition] once for
    every tick of a ticker of period [interval] and once more when the
    timeout closes the channel; a tick that fires while the caller is busy
    is dropped.  It returns the condition's error as soon as there is one,
    [nil] as soon as the condition holds, and [ErrWaitTimeout] when the
    channel is closed and the condition still does not hold.  The ticker is
    started before the timer of the timeout, so a tick that falls on the
    timeout itself is delivered before the channel is closed: with a period
    of 10 seconds and a timeout of 5 minutes the condition runs at most 30
    times on a tick and once more on the close. *)
Definition pollTicks (start interval timeout : Z) : list Z :=
  map (fun k => start + Z.of_nat k * interval)
      (seq 1 (Z.to_nat (timeout / interval))).

Fixpoint WaitFor (ticks : list Z) (closed : Z)
    (fn : Go (World B) (bool * option error)) : Go (World B) (option error) :=
  match ticks with
  | [] =>
      let* _ := sleepUntil closed in
      let* (ok, err) := fn in
      match err with
      | Some e => ret (Some e)
      | None => if ok then ret None else ret (Some ErrWaitTimeout)
      end
  | t :: later =>
      let* n := clock in
      if t <=? n then WaitFor later closed fn
      else
        let* _ := sleepUntil t in
        let* (ok, err) := fn in
        match err with
        | Some e => ret (Some e)
        | None => if ok then ret None else WaitFor later closed fn
        end
  end.

Definition Poll (interval timeout : Z)
    (condition : Go (World B) (bool * option error))
  : Go (World B) (option error) :=
  let* start := clock in
  WaitFor (pollTicks start interval timeout) (start + timeout) condition.

(** *** The provider *)

Definition getSlugForOS (os : string) : string * option error :=
  if String.eqb os (OperatingSystemUbuntu L) then ("ubuntu-16-04-x64", None)
  else if String.eqb os (OperatingSystemCoreos L) then ("coreos-stable", None)
  else ("", Some ErrOSNotSupported).

Definition getConfig (s : bytes)
  : option config * option providerconfig_Config * option error :=
  let '(pconfig, err) := json_Unmarshal_Config L s in
  match err with
  | Some e => (None, None, Some e)
  | None =>
      let '(c, err) := json_Unmarshal_config L (pc_CloudProviderSpec pconfig) in
      (Some c, Some pconfig, err)
  end.

Definition listAll : godo_ListOptions := {| PerPage := 1000 |}.

(** The loop over the sizes in [Validate]: [inl] is a [return] from
    inside the loop, [inr] the value of [foundSize] after it. *)
Fixpoint validateSizes (c : config) (sizes : list godo_Size) : error + bool :=
  match sizes with
  | [] => inr false
  | size :: later =>
      if String.eqb (Size_Slug size) (Size c) then
        if negb (Size_Available size) then
          inl (Errorf "size is not available" [])
        else
          let regionAvailable :=
            existsb (fun region => String.eqb region (Region c))
                    (Size_Regions size) in
          if negb regionAvailable then
            inl (Errorf "size %q is not available in region %q"
                        [FmtString (Size c); FmtString (Region c)])
          else inr true
      else validateSizes c later
  end.

Definition Validate (spec : MachineSpec) : Go (World B) (option error) :=
  let '(c, pc, err) := getConfig (ProviderConfig spec) in
  match err with
  | Some e => ret (Some (Errorf "failed to parse config: %v" [FmtError e]))
  | None =>
      let* c := deref c in
      if String.eqb (Token c) "" then ret (Some (errorString "token is missing"))
      else if String.eqb (Region c) "" then ret (Some (errorString "region is missing"))
      else if String.eqb (Size c) "" then ret (Some (errorString "size is missing"))
      else
        let* pc := deref pc in
        let '(_, err) := getSlugForOS (pc_OperatingSystem pc) in
        match err with
        | Some e =>
            ret (Some (Errorf "invalid operating system specified %q: %v"
                              [FmtString (pc_OperatingSystem pc); FmtError e]))
        | None =>
            let client := getClient (Token c) in
            let* (regions, err) := request RegionsList (Regions_List client listAll) in
            match err with
            | Some e => ret (Some e)
            | None =>
                let foundRegion :=
                  existsb (fun region => String.eqb (Region_Slug region) (Region c))
                          regions in
                if negb foundRegion then
                  ret (Some (Errorf "region %q not found" [FmtString (Region c)]))
                else
                  let* (sizes, err) := request SizesList (Sizes_List client listAll) in
                  match err with
                  | Some e => ret (Some e)
                  | None =>
                      match validateSizes c sizes with
                      | inl e => ret (Some e)
                      | inr foundSize =>
                          if negb foundSize then
                            ret (Some (Errorf "size %q not found" [FmtString (Size c)]))
                          else ret None
                      end
                  end
            end
        end
  end.

Definition ensureSSHKeysExist (service : KeysService B) (rsa : rsa_PublicKey)
  : Go (World B) (string * option error) :=
  let '(pk, err) := ssh_NewPublicKey L rsa in
  match err with
  | Some e => ret ("", Some (Errorf "failed to parse publickey: %v" [FmtError e]))
  | None =>
      let* pk := deref pk in
      let fingerprint := ssh_FingerprintLegacyMD5 L pk in
      let* (dokey, res, err) :=
        request (KeysGetByFingerprint fingerprint)
                (Keys_GetByFingerprint service fingerprint) in
      match err with
      | Some e =>
          if match res with
             | Some r => StatusCode r =? StatusNotFound
             | None => false
             end
          then
            let req :=
              {| KeyCreate_PublicKey :=
                   string_of_list_byte (ssh_MarshalAuthorizedKey L pk);
                 KeyCreate_Name := "machine-controller" |} in
            let* (dokey, _, err) :=
              request (KeysCreate req) (Keys_Create service req) in
            let* key := deref dokey in
            ret (Key_Fingerprint key, None)
          else
            ret ("", Some (Errorf "failed to get key from digitalocean: %v"
                                  [FmtError e]))
      | None =>
          let* key := deref dokey in
          ret (Key_Fingerprint key, None)
      end
  end.

(** The condition polled by [Create]. *)
Definition createCheck (client : godo_Client B) (machine : Machine)
    (droplet : option godo_Droplet) : Go (World B) (bool * option error) :=
  let* dr := deref droplet in
  let* (newDroplet, err) :=
    request (DropletsGet (Droplet_ID dr))
            (Droplets_Get (Droplets client) (Droplet_ID dr)) in
  match err with
  | Some _ =>
      let* _ := Sleep createCheckFailedWaitPeriod in
      ret (false,
           Some (Errorf "droplet (id='%d') got created but we failed to fetch its status"
                        [FmtInt (Droplet_ID dr)]))
  | None =>
      let* nd := deref newDroplet in
      if Has (NewString (Droplet_Tags nd)) (UID machine)
      then ret (true, None)
      else ret (false, None)
  end.

Definition Create (machine : Machine) (userdata : string)
    (publicKey : rsa_PublicKey) : Go (World B) (option doInstance * option error) :=
  let '(c, pc, err) := getConfig (ProviderConfig (Spec machine)) in
  match err with
  | Some e => ret (None, Some (Errorf "failed to parse config: %v" [FmtError e]))
  | None =>
      let* c := deref c in
      let client := getClient (Token c) in
      let* (fingerprint, err) := ensureSSHKeysExist (Keys client) publicKey in
      match err with
      | Some e =>
          ret (None, Some (Errorf "failed to ensure ssh keys exist: %v" [FmtError e]))
      | None =>
          let* pc := deref pc in
          let '(slug, err) := getSlugForOS (pc_OperatingSystem pc) in
          match err with
          | Some e =>
              ret (None,
                   Some (Errorf "invalid operating system specified %q: %v"
                                [FmtString (pc_OperatingSystem pc); FmtError e]))
          | None =>
              let createRequest :=
                {| Create_Image := slug;
                   Create_Name := Spec_Name (Spec machine);
                   Create_Region := Region c;
                   Create_Size := Size c;
                   Create_IPv6 := IPv6 c;
                   Create_PrivateNetworking := PrivateNetworking c;
                   Create_Backups := Backups c;
                   Create_UserData := userdata;
                   Create_SSHKeys := [fingerprint];
                   Create_Tags := (Tags c ++ [UID machine])%list |} in
              let* (droplet, err) :=
                request (DropletsCreate createRequest)
                        (Droplets_Create (Droplets client) createRequest) in
              match err with
              | Some e => ret (None, Some e)
              | None =>
                  (* err = wait.Poll(...): the value is assigned and not read *)
                  let* err :=
                    Poll createCheckPeriod createCheckTimeout
                         (createCheck client machine droplet) in
                  ret (Some {| droplet := droplet |}, None)
              end
          end
      end
  end.

(** The [range] loop of [Get].  The controller is built with Go 1.15
    (.prow.yaml), where the loop variable [droplet] is one variable for the
    whole loop: [d = &droplet] stores the address of that variable, not of
    the list element.  [loopDroplet] is its content, [d] the pointer, which
    is [nil] or that address. *)
Inductive pointer := addressOfLoopDroplet.

Record getLoop := {
  loopDroplet : godo_Droplet;
  d : option pointer }.

Definition getStep (machine : Machine) (st : getLoop) (next : godo_Droplet)
  : getLoop :=
  let st := {| loopDroplet := next; d := d st |} in
  if String.eqb (Droplet_Name (loopDroplet st)) (Spec_Name (Spec machine))
     && Has (NewString (Droplet_Tags (loopDroplet st))) (UID machine)
  then {| loopDroplet := loopDroplet st; d := Some addressOfLoopDroplet |}
  else st.

Definition Get (machine : Machine)
  : Go (World B) (option doInstance * option error) :=
  let '(c, _, err) := getConfig (ProviderConfig (Spec machine)) in
  match err with
  | Some e => ret (None, Some (Errorf "failed to parse config: %v" [FmtError e]))
  | None =>
      let* c := deref c in
      let client := getClient (Token c) in
      let* (droplets, err) :=
        request DropletsList (Droplets_List (Droplets client) listAll) in
      match err with
      | Some e => ret (None, Some (Errorf "failed to get droplets: %v" [FmtError e]))
      | None =>
          let st :=
            foldl (getStep machine) {| loopDroplet := zeroDroplet; d := None |}
                  droplets in
          match d st with
          | None => ret (None, Some InstanceNotFoundErr)
          | Some addressOfLoopDroplet =>
              ret (Some {| droplet := Some (loopDroplet st) |}, None)
          end
      end
  end.

(** *** The instance handle *)

Definition Name {S} (i : doInstance) : Go S string :=
  let* dr := deref (droplet i) in ret (Droplet_Name dr).

Definition ID {S} (i : doInstance) : Go S string :=
  let* dr := deref (droplet i) in ret (Itoa (Droplet_ID dr)).

Definition Status {S} (i : doInstance) : Go S State :=
  let* dr := deref (droplet i) in
  if String.eqb (Droplet_Status dr) "new" then ret InstanceStarting
  else if String.eqb (Droplet_Status dr) "active" then ret InstanceRunning
  else ret InstanceStopped.

Definition Addresses {S} (i : doInstance) : Go S (list string) :=
  let* dr := deref (droplet i) in
  let* networks := deref (Droplet_Networks dr) in
  ret (V4 networks ++ V6 networks)%list.

Definition Delete (machine : Machine) : Go (World B) (option error) :=
  let '(c, _, err) := getConfig (ProviderConfig (Spec machine)) in
  match err with
  | Some e => ret (Some (Errorf "failed to parse config: %v" [FmtError e]))
  | None =>
      let* c := deref c in
      let client := getClient (Token c) in
      let* (i, err) := Get machine in
      match err with
      | Some e => if isInstanceNotFoundErr e then ret None else ret (Some e)
      | None =>
          let* i := deref i in
          let* id := ID i in
          let '(doID, _) := Atoi id in
          request (DropletsDelete doID) (Droplets_Delete (Droplets client) doID)
      end
  end.

Definition GetCloudConfig {S} (spec : MachineSpec)
  : Go S (string * string * option error) :=
  ret ("", "", None).

End Provider.

(** ** An in-memory backend

    The state of a DigitalOcean account, with the behaviour the provider
    relies on: the key registry is keyed by fingerprint, a droplet is listed
    and described as it is stored.  Three fields script what a test observes
    of the remote side: [appliesTags] tells whether a new droplet is stored
    with the tags of the create request, [describes] are the replies to the
    next describe requests (afterwards the stored droplet is described), and
    [regionsFault] makes the region listing fail in transit. *)
Record MemBackend := {
  regions : list godo_Region;
  sizes : list godo_Size;
  keys : list godo_Key;
  droplets : list godo_Droplet;
  appliesTags : bool;
  describes : list (option godo_Droplet * option error);
  regionsFault : option error }.

Definition findKey (fingerprint : string) (ks : list godo_Key) : option godo_Key :=
  List.find (fun k => String.eqb (Key_Fingerprint k) fingerprint) ks.

Definition setKeys (b : MemBackend) (ks : list godo_Key) : MemBackend :=
  {| regions := regions b; sizes := sizes b; keys := ks;
     droplets := droplets b; appliesTags := appliesTags b;
     describes := describes b; regionsFault := regionsFault b |}.

Definition setDroplets (b : MemBackend) (ds : list godo_Droplet)
    (replies : list (option godo_Droplet * option error)) : MemBackend :=
  {| regions := regions b; sizes := sizes b; keys := keys b;
     droplets := ds; appliesTags := appliesTags b;
     describes := replies; regionsFault := regionsFault b |}.

Section MemClient.
(** The fingerprint the registry computes from a submitted public key. *)
Context (fingerprintOf : string -> string).

Definition memKeysGet (fingerprint : string) (b : MemBackend)
  : (option godo_Key * option godo_Response * option error) * MemBackend :=
  match findKey fingerprint (keys b) with
  | Some k => ((Some k, Some {| StatusCode := 200 |}, None), b)
  | None =>
      ((None, Some {| StatusCode := 404 |}, Some (ErrorResponse 404)), b)
  end.

Definition memKeysCreate (req : godo_KeyCreateRequest) (b : MemBackend)
  : (option godo_Key * option godo_Response * option error) * MemBackend :=
  let fingerprint := fingerprintOf (KeyCreate_PublicKey req) in
  match findKey fingerprint (keys b) with
  | Some _ =>
      ((None, Some {| StatusCode := 422 |}, Some (ErrorResponse 422)), b)
  | None =>
      let k := {| Key_ID := Z.of_nat (length (keys b)) + 1;
                  Key_Name := KeyCreate_Name req;
                  Key_Fingerprint := fingerprint;
                  Key_PublicKey := KeyCreate_PublicKey req |} in
      ((Some k, Some {| StatusCode := 201 |}, None),
       setKeys b (keys b ++ [k])%list)
  end.

Definition memKeys : KeysService MemBackend :=
  {| Keys_GetByFingerprint := memKeysGet; Keys_Create := memKeysCreate |}.

Definition findDroplet (id : Z) (ds : list godo_Droplet) : option godo_Droplet :=
  List.find (fun dr => Droplet_ID dr =? id) ds.

Definition memDropletsGet (id : Z) (b : MemBackend)
  : (option godo_Droplet * option error) * MemBackend :=
  match describes b with
  | reply :: later => (reply, setDroplets b (droplets b) later)
  | [] =>
      match findDroplet id (droplets b) with
      | Some dr => ((Some dr, None), b)
      | None => ((None, Some (ErrorResponse 404)), b)
      end
  end.

Definition memDropletsCreate (req : godo_DropletCreateRequest) (b : MemBackend)
  : (option godo_Droplet * option error) * MemBackend :=
  let dr := {| Droplet_ID := Z.of_nat (length (droplets b)) + 1;
               Droplet_Name := Create_Name req;
               Droplet_Status := "new";
               Droplet_Tags := if appliesTags b then Create_Tags req else [];
               Droplet_Networks := Some {| V4 := []; V6 := [] |} |} in
  ((Some dr, None), setDroplets b (droplets b ++ [dr])%list (describes b)).

Definition memDropletsDelete (id : Z) (b : MemBackend)
  : option error * MemBackend :=
  match findDroplet id (droplets b) with
  | Some _ =>
      (None,
       setDroplets b (List.filter (fun dr => negb (Droplet_ID dr =? id)) (droplets b))
                   (describes b))
  | None => (Some (ErrorResponse 404), b)
  end.

Definition memDroplets : DropletsService MemBackend :=
  {| Droplets_List := fun _ b => ((droplets b, None), b);
     Droplets_Get := memDropletsGet;
     Droplets_Create := memDropletsCreate;
     Droplets_Delete := memDropletsDelete |}.

Definition memClient (token : string) : godo_Client MemBackend :=
  {| Keys := memKeys;
     Droplets := memDroplets;
     Regions_List := fun _ b =>
       match regionsFault b with
       | Some e => (([], Some e), b)
       | None => ((regions b, None), b)
       end;
     Sizes_List := fun _ b => ((sizes b, None), b) |}.

End MemClient.

Definition start {B} (b : B) : World B := {| backend := b; now := 0; trace := [] |}.

End digitalocean.

(** * Test doubles of the libraries

    [fakeLibs] stands in for the libraries where a result is evaluated on a
    concrete input: the decoders accept any non-empty blob and yield one
    fixed configuration, a private key is encoded as one byte behind the PEM
    marker, and a public key's fingerprint and text are its modulus in
    decimal. *)

Definition fakeConfig : config :=
  {| Token := "secret-token"; Region := "fra1"; Size := "2gb";
     Backups := false; IPv6 := false; PrivateNetworking := true;
     Tags := ["worker"] |}.

Definition fakeKey (n : Z) : rsa_PrivateKey :=
  {| rsa_Public := {| rsa_N := n; rsa_E := 65537 |}; rsa_D := n; rsa_Primes := [] |}.

Definition fakeMarker : bytes := list_byte_of_string "-----BEGIN ".

Definition fakeLibs : Libs :=
  {| json_Unmarshal_Config := fun raw =>
       match raw with
       | [] => ({| pc_CloudProvider := ""; pc_CloudProviderSpec := [];
                   pc_OperatingSystem := "" |},
                Some (transportError "unexpected end of JSON input"))
       | _ => ({| pc_CloudProvider := "digitalocean"; pc_CloudProviderSpec := raw;
                  pc_OperatingSystem := "ubuntu" |}, None)
       end;
     json_Unmarshal_config := fun raw => (fakeConfig, None);
     OperatingSystemUbuntu := "ubuntu";
     OperatingSystemCoreos := "coreos";
     pem_Encode := fun blk => ((fakeMarker ++ pem_Bytes blk)%list, None);
     pem_decodeArmoured := fun data =>
       Some {| pem_Type := "RSA PRIVATE KEY"; pem_Headers := ∅;
               pem_Bytes := drop (length fakeMarker) data |};
     x509_MarshalPKCS1PrivateKey := fun k =>
       if rsa_D k =? 1 then [x01] else [x02];
     x509_ParsePKCS1PrivateKey := fun b =>
       match b with
       | [x01] => (Some (fakeKey 1), None)
       | [x02] => (Some (fakeKey 2), None)
       | _ => (None, Some (transportError "asn1: structure error"))
       end;
     NewPrivateKey := (Some (fakeKey 1), None);
     ssh_NewPublicKey := fun k => (Some k, None);
     ssh_FingerprintLegacyMD5 := fun k => Itoa (rsa_N k);
     ssh_MarshalAuthorizedKey := fun k => list_byte_of_string (Itoa (rsa_N k)) |}.

(** * Fixtures *)

Import digitalocean.

(** A stored secret whose bytes under [id_rsa] carry no PEM block. *)
Definition garbageSecret : ssh.Secret :=
  {| ssh.Name := ssh.secretName; ssh.Namespace := ssh.NamespaceSystem;
     ssh.Type_ := ssh.SecretTypeOpaque;
     ssh.Data := {[ ssh.privateKeyDataIndex := list_byte_of_string "garbage" ]} |}.

(** The secret another caller stores first: it holds [fakeKey 2]. *)
Definition winnerSecret : ssh.Secret :=
  {| ssh.Name := ssh.secretName; ssh.Namespace := "";
     ssh.Type_ := ssh.SecretTypeOpaque;
     ssh.Data := {[ ssh.privateKeyDataIndex := (fakeMarker ++ [x02])%list ]} |}.

(** An empty store, where the other caller's create is served between the
    read and the write of this caller. *)
Definition raceWorld : ssh.World ssh.MemStore :=
  {| ssh.store := {| ssh.objects := ∅;
                     ssh.rivals := [ []; [(ssh.NamespaceSystem, winnerSecret)] ] |};
     ssh.requests := [] |}.

(** The secret [EnsureSSHKeypairSecret] writes for a key encoded as [buf],
    and the PEM block it encodes. *)
Definition newSecret (buf : bytes) : ssh.Secret :=
  {| ssh.Name := ssh.secretName; ssh.Namespace := "";
     ssh.Type_ := ssh.SecretTypeOpaque;
     ssh.Data := {[ ssh.privateKeyDataIndex := buf ]} |}.

Definition keyBlock (L : Libs) (key : rsa_PrivateKey) : pem_Block :=
  {| pem_Type := "RSA PRIVATE KEY"; pem_Headers := ∅;
     pem_Bytes := x509_MarshalPKCS1PrivateKey L key |}.

(** The test of the loop of [Get]: name and identifier tag. *)
Definition matchesMachine (machine : Machine) (x : godo_Droplet) : bool :=
  String.eqb (Droplet_Name x) (Spec_Name (Spec machine))
  && Has (NewString (Droplet_Tags x)) (UID machine).

(** The requests a run has added to the trace. *)
Definition issued {B} (before after : World B) : list Call :=
  drop (length (trace before)) (trace after).

Definition isDelete (c : Call) : bool :=
  match c with
  | DropletsDelete _ => true
  | _ => false
  end.

(** Two droplets with one display name and different identifier tags, and
    the machine of the first. *)
Definition dropletA : godo_Droplet :=
  {| Droplet_ID := 101; Droplet_Name := "node"; Droplet_Status := "active";
     Droplet_Tags := ["worker"; "uid-a"];
     Droplet_Networks := Some {| V4 := ["10.0.0.1"]; V6 := [] |} |}.

Definition dropletB : godo_Droplet :=
  {| Droplet_ID := 102; Droplet_Name := "node"; Droplet_Status := "active";
     Droplet_Tags := ["worker"; "uid-b"];
     Droplet_Networks := Some {| V4 := ["10.0.0.2"]; V6 := [] |} |}.

Definition machineA : Machine :=
  {| UID := "uid-a";
     Spec := {| Spec_Name := "node";
                ProviderConfig := list_byte_of_string "{...}" |} |}.

Definition account (ds : list godo_Droplet) : MemBackend :=
  {| regions := [ {| Region_Slug := "fra1"; Region_Name := "Frankfurt 1";
                     Region_Available := true |} ];
     sizes := [ {| Size_Slug := "2gb"; Size_Available := true;
                   Size_Regions := ["fra1"] |} ];
     keys := []; droplets := ds; appliesTags := true; describes := [];
     regionsFault := None |}.

(** The registry's fingerprint of a key text, for the test libraries. *)
Definition fakeFingerprintOf (text : string) : string := text.

(** The number of registry entries with a fingerprint. *)
Definition registered (fingerprint : string) (ks : list godo_Key) : nat :=
  length (List.filter (fun k => String.eqb (Key_Fingerprint k) fingerprint) ks).

Definition isKeysCreate (c : Call) : bool :=
  match c with
  | KeysCreate _ => true
  | _ => false
  end.

(** The key registration request of [ensureSSHKeysExist]. *)
Definition keyRequest (L : Libs) (pk : rsa_PublicKey) : godo_KeyCreateRequest :=
  {| KeyCreate_PublicKey := string_of_list_byte (ssh_MarshalAuthorizedKey L pk);
     KeyCreate_Name := "machine-controller" |}.

(** A key service whose lookup reports not-found and whose create fails
    with a server error, handing back [result] as the key (godo hands back
    [nil] with an error). *)
Definition failingKeys (result : option godo_Key) : KeysService unit :=
  {| Keys_GetByFingerprint := fun _ b =>
       ((None, Some {| StatusCode := 404 |}, Some (ErrorResponse 404)), b);
     Keys_Create := fun _ b =>
       ((result, Some {| StatusCode := 500 |}, Some (ErrorResponse 500)), b) |}.

Definition staleKey : godo_Key :=
  {| Key_ID := 7; Key_Name := "machine-controller"; Key_Fingerprint := "aa:bb";
     Key_PublicKey := "ssh-rsa AAAA" |}.

Definition publicKey77 : rsa_PublicKey := {| rsa_N := 77; rsa_E := 65537 |}.

(** The contract of [Validate], in the words of the specification.  The
    operating system is supported by the backend; the region exists in the
    backend's region list; the size does not exist, is unavailable or is not
    offered in the region. *)
Definition osSupported (L : Libs) (os : string) : Prop :=
  os = OperatingSystemUbuntu L \/ os = OperatingSystemCoreos L.

Definition regionListed (c : config) (rs : list godo_Region) : Prop :=
  exists r, List.In r rs /\ Region_Slug r = Region c.

Definition sizeRefused (c : config) (ss : list godo_Size) : Prop :=
  match List.find (fun sz => String.eqb (Size_Slug sz) (Size c)) ss with
  | None => True
  | Some sz => Size_Available sz = false \/ ~ List.In (Region c) (Size_Regions sz)
  end.

Definition refused (L : Libs) (c : config) (pc : providerconfig_Config)
    (rs : list godo_Region) (ss : list godo_Size) : Prop :=
  Token c = "" \/ Region c = "" \/ Size c = ""
  \/ ~ osSupported L (pc_OperatingSystem pc)
  \/ ~ regionListed c rs
  \/ sizeRefused c ss.

(** The specification accepted: the configuration decodes, the two list
    requests succeed, and nothing in it is refused. *)
Definition accepted (L : Libs) {B} (getClient : string -> godo_Client B)
    (spec : MachineSpec) (b : B) : Prop :=
  exists c pc rs b1 ss b2,
    getConfig L (ProviderConfig spec) = (Some c, Some pc, None)
    /\ Regions_List (getClient (Token c)) listAll b = ((rs, None), b1)
    /\ Sizes_List (getClient (Token c)) listAll b1 = ((ss, None), b2)
    /\ ~ refused L c pc rs ss.

(** An account whose region listing fails in transit. *)
Definition unreachable : MemBackend :=
  {| regions := regions (account []); sizes := sizes (account []);
     keys := []; droplets := []; appliesTags := true; describes := [];
     regionsFault := Some (transportError "dial tcp: i/o timeout") |}.

Definition ubuntuEnvelope : providerconfig_Config :=
  {| pc_CloudProvider := "digitalocean";
     pc_CloudProviderSpec := ProviderConfig (Spec machineA);
     pc_OperatingSystem := "ubuntu" |}.

(** Accounts for [Create]: one that never shows the tags of a new droplet,
    and one whose first describe request fails in transit. *)
Definition untagging : MemBackend :=
  {| regions := regions (account []); sizes := sizes (account []);
     keys := []; droplets := []; appliesTags := false; describes := [];
     regionsFault := None |}.

Definition flaky : MemBackend :=
  {| regions := regions (account []); sizes := sizes (account []);
     keys := []; droplets := []; appliesTags := true;
     describes := [(None, Some (transportError "connection reset by peer"))];
     regionsFault := None |}.

(** The droplet the in-memory backend creates for [machineA], as the
    create call returns it, without and with its tags. *)
Definition provisional : godo_Droplet :=
  {| Droplet_ID := 1; Droplet_Name := "node"; Droplet_Status := "new";
     Droplet_Tags := [];
     Droplet_Networks := Some {| V4 := []; V6 := [] |} |}.

Definition tagged : godo_Droplet :=
  {| Droplet_ID := 1; Droplet_Name := "node"; Droplet_Status := "new";
     Droplet_Tags := ["worker"; "uid-a"];
     Droplet_Networks := Some {| V4 := []; V6 := [] |} |}.

(** An account that shows the tags at the third describe request. *)
Definition slow : MemBackend :=
  {| regions := regions (account []); sizes := sizes (account []);
     keys := []; droplets := []; appliesTags := true;
     describes := [(Some provisional, None); (Some provisional, None)];
     regionsFault := None |}.

Definition isDescribe (c : Call) : bool :=
  match c with
  | DropletsGet _ => true
  | _ => false
  end.

Definition userdata : string := "#cloud-config".

(** The error of the polled condition when the describe request fails. *)
Definition describeFailed (id : Z) : error :=
  Errorf "droplet (id='%d') got created but we failed to fetch its status"
         [FmtInt id].

(** A secret store that refuses the read, and an empty store nobody else
    writes to. *)
Definition forbiddenStore : ssh.SecretInterface unit :=
  {| ssh.secrets_Get := fun _ _ st =>
       ((None, Some (StatusError (StatusReasonOther "Forbidden"))), st);
     ssh.secrets_Create := fun _ _ st =>
       ((None, Some (StatusError (StatusReasonOther "Forbidden"))), st) |}.

Definition quietStore : ssh.MemStore := {| ssh.objects := ∅; ssh.rivals := [] |}.

Definition freshWorld : ssh.World ssh.MemStore :=
  {| ssh.store := quietStore; ssh.requests := [] |}.

(** A secret without the entry [id_rsa]. *)
Definition emptySecret : ssh.Secret :=
  {| ssh.Name := ssh.secretName; ssh.Namespace := ssh.NamespaceSystem;
     ssh.Type_ := ssh.SecretTypeOpaque; ssh.Data := ∅ |}.

(** The error of [keyFromSecret] for a secret without the entry. *)
Definition keyDataNotFound (sec : ssh.Secret) : error :=
  Errorf "key data not found in secret '%s/%s' (secret.data['%s']). remove it and a new one will be created"
         [FmtString (ssh.Namespace sec); FmtString (ssh.Name sec);
          FmtString ssh.privateKeyDataIndex].

(** A machine whose provider configuration is empty, which the test
    decoders reject, and a client whose every request fails in transit. *)
Definition machineBlank : Machine :=
  {| UID := "uid-blank";
     Spec := {| Spec_Name := "blank"; ProviderConfig := [] |} |}.

Definition connectionRefused : error := transportError "connection refused".

Definition downClient (token : string) : godo_Client unit :=
  {| Keys :=
       {| Keys_GetByFingerprint := fun _ b =>
            ((None, None, Some connectionRefused), b);
          Keys_Create := fun _ b => ((None, None, Some connectionRefused), b) |};
     Droplets :=
       {| Droplets_List := fun _ b => (([], Some connectionRefused), b);
          Droplets_Get := fun _ b => ((None, Some connectionRefused), b);
          Droplets_Create := fun _ b => ((None, Some connectionRefused), b);
          Droplets_Delete := fun _ b => (Some connectionRefused, b) |};
     Regions_List := fun _ b => (([], Some connectionRefused), b);
     Sizes_List := fun _ b => (([], Some connectionRefused), b) |}.

(** The test libraries with an envelope that asks for an operating system
    the provider has no image for. *)
Definition centosLibs : Libs :=
  {| json_Unmarshal_Config := fun raw =>
       ({| pc_CloudProvider := "digitalocean"; pc_CloudProviderSpec := raw;
           pc_OperatingSystem := "centos" |}, None);
     json_Unmarshal_config := json_Unmarshal_config fakeLibs;
     OperatingSystemUbuntu := OperatingSystemUbuntu fakeLibs;
     OperatingSystemCoreos := OperatingSystemCoreos fakeLibs;
     pem_Encode := pem_Encode fakeLibs;
     pem_decodeArmoured := pem_decodeArmoured fakeLibs;
     x509_MarshalPKCS1PrivateKey := x509_MarshalPKCS1PrivateKey fakeLibs;
     x509_ParsePKCS1PrivateKey := x509_ParsePKCS1PrivateKey fakeLibs;
     NewPrivateKey := NewPrivateKey fakeLibs;
     ssh_NewPublicKey := ssh_NewPublicKey fakeLibs;
     ssh_FingerprintLegacyMD5 := ssh_FingerprintLegacyMD5 fakeLibs;
     ssh_MarshalAuthorizedKey := ssh_MarshalAuthorizedKey fakeLibs |}.

Definition isDropletsCreate (c : Call) : bool :=
  match c with
  | DropletsCreate _ => true
  | _ => false
  end.

(** The error the four operations return for a configuration that does not
    decode. *)
Definition parseFailed (e : error) : error :=
  Errorf "failed to parse config: %v" [FmtError e].

(** The ID polled by [Create]: the one of the droplet the create call
    returned. *)
Definition provisionalID (created : option godo_Droplet) : Z :=
  match created with
  | Some dr => Droplet_ID dr
  | None => 0
  end.

(** The droplet create request of [Create]. *)
Definition createRequestOf (machine : Machine) (text : string) (c : config)
    (slug fingerprint : string) : godo_DropletCreateRequest :=
  {| Create_Image := slug;
     Create_Name := Spec_Name (Spec machine);
     Create_Region := Region c;
     Create_Size := Size c;
     Create_IPv6 := IPv6 c;
     Create_PrivateNetworking := PrivateNetworking c;
     Create_Backups := Backups c;
     Create_UserData := text;
     Create_SSHKeys := [fingerprint];
     Create_Tags := Tags c ++ [UID machine] |}.

(** * Results *)

(** ** Package ssh *)

Section KeyFromSecret.
Context (L : Libs) {S : Type}.

Lemma pem_Decode_without_marker (data : bytes) :
  HasPrefix data (tail ssh.pemStart) = false ->
  Contains data ssh.pemStart = false ->
  ssh.pem_Decode L data = None.
Proof. intros Hp Hc. unfold ssh.pem_Decode. now rewrite Hp, Hc. Qed.

(** Bytes without a PEM block: the read of [decoded.Bytes] goes through
    a nil pointer. *)
Lemma keyFromSecret_without_block (sec : ssh.Secret) (b : bytes) (s : S) :
  ssh.Data sec !! ssh.privateKeyDataIndex = Some b ->
  ssh.pem_Decode L b = None ->
  ssh.keyFromSecret L (Some sec) s = (Panics nilDereference, s).
Proof.
  intros Hb Hd. unfold ssh.keyFromSecret, bind, deref, ret, panic.
  now rewrite Hb, Hd.
Qed.

(** A PEM block whose bytes are not a PKCS#1 key: the error branch. *)
Lemma keyFromSecret_unparsable_block
    (sec : ssh.Secret) (b : bytes) (blk : pem_Block) (k : option rsa_PrivateKey)
    (e : error) (s : S) :
  ssh.Data sec !! ssh.privateKeyDataIndex = Some b ->
  ssh.pem_Decode L b = Some blk ->
  x509_ParsePKCS1PrivateKey L (pem_Bytes blk) = (k, Some e) ->
  ssh.keyFromSecret L (Some sec) s =
    (Returns (None, Some (Errorf "failed to parse private key: %v" [FmtError e])), s).
Proof.
  intros Hb Hd Hp. unfold ssh.keyFromSecret, bind, deref, ret.
  now rewrite Hb, Hd, Hp.
Qed.

(** [keyFromSecret] leaves the state alone. *)
Lemma keyFromSecret_state (secret : option ssh.Secret) (s : S) :
  (ssh.keyFromSecret L secret s).2 = s.
Proof.
  unfold ssh.keyFromSecret, bind, deref, ret, panic.
  destruct secret as [sec|]; [|reflexivity]. simpl.
  destruct (ssh.Data sec !! ssh.privateKeyDataIndex) as [b|]; [|reflexivity].
  destruct (ssh.pem_Decode L b) as [blk|]; [|reflexivity]. simpl.
  destruct (x509_ParsePKCS1PrivateKey L (pem_Bytes blk)) as [k [e|]]; reflexivity.
Qed.
End KeyFromSecret.

(** C4, at the failing input: the secret's bytes under [id_rsa] are
    [garbage], which holds no PEM block.  Whatever the libraries do,
    [keyFromSecret] panics on the nil block that [pem.Decode] returns; it
    does not return an error value. *)
Theorem keyFromSecret_panics_on_garbage :
  forall (L : Libs) (S : Type) (s : S),
    ssh.keyFromSecret L (Some garbageSecret) s = (Panics nilDereference, s).
Proof.
  intros L S s.
  apply keyFromSecret_without_block with (b := list_byte_of_string "garbage").
  - reflexivity.
  - apply pem_Decode_without_marker; reflexivity.
Qed.

Section EnsureSecret.
Context (L : Libs) {St : Type} (client : ssh.SecretInterface St).

(** Over any store: a failed write after a not-found read is returned as
    it is, and the store sees exactly the read and the write. *)
Lemma EnsureSSHKeypairSecret_create_fails
    (w : ssh.World St) (s0 s1 : option ssh.Secret) (e0 e1 : error)
    (st1 st2 : St) (key : rsa_PrivateKey) (buf : bytes) :
  ssh.secrets_Get client ssh.NamespaceSystem ssh.secretName (ssh.store w)
    = ((s0, Some e0), st1) ->
  IsNotFound e0 = true ->
  NewPrivateKey L = (Some key, None) ->
  pem_Encode L (keyBlock L key) = (buf, None) ->
  ssh.secrets_Create client ssh.NamespaceSystem (newSecret buf) st1
    = ((s1, Some e1), st2) ->
  ssh.EnsureSSHKeypairSecret L client w =
    (Returns (None, Some e1),
     {| ssh.store := st2;
        ssh.requests :=
          (ssh.requests w ++ [ssh.GetSecret ssh.NamespaceSystem ssh.secretName])
            ++ [ssh.CreateSecret ssh.NamespaceSystem (newSecret buf)] |}).
Proof.
  intros Hget Hnf Hgen Henc Hcreate.
  unfold ssh.EnsureSSHKeypairSecret, bind, ssh.Get. rewrite Hget. simpl.
  rewrite Hnf, Hgen. simpl.
  fold (keyBlock L key). rewrite Henc.
  unfold bind, ssh.Create. simpl. fold (newSecret buf). now rewrite Hcreate.
Qed.
End EnsureSecret.

(** C3, counterexample: on an empty store where another caller's create is
    served between this caller's read and write, [EnsureSSHKeypairSecret]
    returns the store's conflict error and no key.  It sends the read and
    the write and nothing else, although a second read would have yielded
    the winner's key. *)
Lemma EnsureSSHKeypairSecret_conflict_is_returned :
  let r := ssh.EnsureSSHKeypairSecret fakeLibs ssh.memSecrets raceWorld in
  r.1 = Returns (None, Some (StatusError StatusReasonAlreadyExists))
  /\ r.1 <> Returns (Some (fakeKey 2), None)
  /\ ssh.requests r.2 =
       [ssh.GetSecret ssh.NamespaceSystem ssh.secretName;
        ssh.CreateSecret ssh.NamespaceSystem (newSecret (fakeMarker ++ [x01])%list)]
  /\ (ssh.keyFromSecret fakeLibs
        (ssh.objects (ssh.store r.2) !! (ssh.NamespaceSystem, ssh.secretName)) r.2).1
      = Returns (Some (fakeKey 2), None).
Proof. vm_compute. repeat split; discriminate. Qed.

(** C3, amended: when the secret is absent at the read and another caller
    stores its secret [winner] under the well-known name before the write,
    [EnsureSSHKeypairSecret] returns the conflict error and no key, without
    reading the store again; the store then holds the winner's secret under
    that name, untouched by the failed write. *)
Theorem EnsureSSHKeypairSecret_write_conflict :
  forall (L : Libs) (o : gmap (string * string) ssh.Secret)
         (later : list (list (string * ssh.Secret)))
         (winner : ssh.Secret) (key : rsa_PrivateKey) (buf : bytes),
    o !! (ssh.NamespaceSystem, ssh.secretName) = None ->
    ssh.Name winner = ssh.secretName ->
    NewPrivateKey L = (Some key, None) ->
    pem_Encode L (keyBlock L key) = (buf, None) ->
    ssh.EnsureSSHKeypairSecret L ssh.memSecrets
      {| ssh.store :=
           {| ssh.objects := o;
              ssh.rivals := [] :: [(ssh.NamespaceSystem, winner)] :: later |};
         ssh.requests := [] |}
    = (Returns (None, Some (StatusError StatusReasonAlreadyExists)),
       {| ssh.store :=
            {| ssh.objects :=
                 <[(ssh.NamespaceSystem, ssh.secretName) :=
                     ssh.inNamespace ssh.NamespaceSystem winner]> o;
               ssh.rivals := later |};
          ssh.requests :=
            [ssh.GetSecret ssh.NamespaceSystem ssh.secretName;
             ssh.CreateSecret ssh.NamespaceSystem (newSecret buf)] |}).
Proof.
  intros L o later winner key buf Habsent Hname Hgen Henc.
  set (st1 := {| ssh.objects := o;
                 ssh.rivals := [(ssh.NamespaceSystem, winner)] :: later |}).
  set (o2 := <[(ssh.NamespaceSystem, ssh.secretName) :=
                 ssh.inNamespace ssh.NamespaceSystem winner]> o).
  erewrite (EnsureSSHKeypairSecret_create_fails L ssh.memSecrets _
              None None (StatusError StatusReasonNotFound)
              (StatusError StatusReasonAlreadyExists) st1
              {| ssh.objects := o2; ssh.rivals := later |} key buf);
    [reflexivity | | reflexivity | exact Hgen | exact Henc | ].
  - simpl. unfold ssh.memGet, ssh.serveRivals. simpl. now rewrite Habsent.
  - simpl. unfold ssh.memCreate, ssh.serveRivals. simpl.
    unfold ssh.createObject. simpl. rewrite Hname, Habsent.
    fold o2. unfold o2. now rewrite lookup_insert_eq.
Qed.

(** The scenario of C3 with the test libraries and the secret [winnerSecret]. *)
Lemma EnsureSSHKeypairSecret_write_conflict_witness :
  ssh.EnsureSSHKeypairSecret fakeLibs ssh.memSecrets raceWorld
  = (Returns (None, Some (StatusError StatusReasonAlreadyExists)),
     {| ssh.store :=
          {| ssh.objects :=
               <[(ssh.NamespaceSystem, ssh.secretName) :=
                   ssh.inNamespace ssh.NamespaceSystem winnerSecret]> ∅;
             ssh.rivals := [] |};
        ssh.requests :=
          [ssh.GetSecret ssh.NamespaceSystem ssh.secretName;
           ssh.CreateSecret ssh.NamespaceSystem
             (newSecret (fakeMarker ++ [x01])%list)] |}).
Proof.
  apply (EnsureSSHKeypairSecret_write_conflict fakeLibs ∅ [] winnerSecret
           (fakeKey 1) (fakeMarker ++ [x01])%list); reflexivity.
Defined.

(** ** Package digitalocean: the instance handle *)

(** C7: [Status] is total on status strings and has exactly three outcomes:
    for a handle on a droplet it returns, without error or panic,
    [InstanceStarting] exactly for the status [new], [InstanceRunning]
    exactly for [active], and [InstanceStopped] for every other string. *)
Theorem Status_total :
  forall (S : Type) (dr : godo_Droplet) (s : S),
  exists st : State,
    Status {| droplet := Some dr |} s = (Returns st, s)
    /\ (st = InstanceStarting <-> Droplet_Status dr = "new")
    /\ (st = InstanceRunning <-> Droplet_Status dr = "active")
    /\ (st = InstanceStopped <->
        Droplet_Status dr <> "new" /\ Droplet_Status dr <> "active").
Proof.
  intros S dr s. unfold Status, bind, deref, ret. simpl.
  destruct (String.eqb_spec (Droplet_Status dr) "new") as [Hn|Hn].
  - exists InstanceStarting. rewrite Hn. intuition congruence.
  - destruct (String.eqb_spec (Droplet_Status dr) "active") as [Ha|Ha].
    + exists InstanceRunning. rewrite Ha. intuition congruence.
    + exists InstanceStopped. intuition congruence.
Qed.

(** ** strconv *)

Lemma string_of_uint_no_plus (d : Decimal.uint) (s : string) :
  NilZero.string_of_uint d <> String "+" s.
Proof. destruct d; simpl; discriminate. Qed.

Lemma Itoa_no_plus (n : Z) (s : string) : Itoa n <> String "+" s.
Proof.
  unfold Itoa. destruct (Z.to_int n) as [d|d]; simpl.
  - apply string_of_uint_no_plus.
  - discriminate.
Qed.

Lemma int_of_string_Itoa (n : Z) :
  NilZero.int_of_string (Itoa n) = Some (Z.to_int n).
Proof.
  unfold Itoa. apply NilZero.isi.
  - destruct n; simpl; try discriminate.
    intros [= H]. now apply (DecimalPos.Unsigned.to_uint_nonnil p).
  - destruct n; simpl; try discriminate.
    intros [= H]. now apply (DecimalPos.Unsigned.to_uint_nonnil p).
Qed.

(** [Atoi] reads back what [Itoa] prints. *)
Lemma Atoi_Itoa (n : Z) : isInt n -> Atoi (Itoa n) = (n, None).
Proof.
  intros [Hlo Hhi]. unfold Atoi.
  assert (Hparsed :
    match Itoa n with
    | String "+" digits => option_map Z.of_uint (NilZero.uint_of_string digits)
    | _ => option_map Z.of_int (NilZero.int_of_string (Itoa n))
    end = Some n).
  { pose proof (Itoa_no_plus n) as Hplus.
    pose proof (int_of_string_Itoa n) as Hint.
    destruct (Itoa n) as [|a s] eqn:E.
    - simpl in Hint. discriminate.
    - destruct (Ascii.eqb_spec a "+") as [->|Hne].
      + now destruct (Hplus s).
      + assert (Hgoal : option_map Z.of_int (NilZero.int_of_string (String a s)) = Some n).
        { rewrite Hint. simpl. now rewrite DecimalZ.of_to. }
        destruct a as [[] [] [] [] [] [] [] []]; try exact Hgoal.
        now destruct Hne. }
  rewrite Hparsed.
  destruct (Z.ltb_spec n minInt); [lia|].
  destruct (Z.ltb_spec maxInt n); [lia|]. reflexivity.
Qed.

(** ** Package digitalocean: [Get] and [Delete] *)

Section GetLoop.
Context (machine : Machine).

Lemma getStep_spec (st : getLoop) (x : godo_Droplet) :
  getStep machine st x =
    {| loopDroplet := x;
       d := if matchesMachine machine x then Some addressOfLoopDroplet else d st |}.
Proof.
  unfold getStep, matchesMachine. simpl.
  now destruct (_ && _).
Qed.

Lemma last_default {A} (x : A) (l : list A) (a b : A) :
  List.last (x :: l) a = List.last (x :: l) b.
Proof.
  revert x. induction l as [|y l IH]; intros x; [reflexivity|].
  change (List.last (y :: l) a = List.last (y :: l) b). apply IH.
Qed.

(** After the loop the variable holds the last droplet listed. *)
Lemma getLoop_droplet (ds : list godo_Droplet) (st : getLoop) :
  loopDroplet (foldl (getStep machine) st ds) = List.last ds (loopDroplet st).
Proof.
  revert st. induction ds as [|x ds IH]; intros st; [reflexivity|].
  simpl foldl. rewrite IH, getStep_spec. simpl loopDroplet.
  destruct ds as [|y ds]; [reflexivity|].
  change (List.last (x :: y :: ds) (loopDroplet st))
    with (List.last (y :: ds) (loopDroplet st)).
  apply last_default.
Qed.

(** The pointer is set as soon as one droplet passes the test. *)
Lemma getLoop_pointer (ds : list godo_Droplet) (st : getLoop) :
  d (foldl (getStep machine) st ds) =
    if existsb (matchesMachine machine) ds then Some addressOfLoopDroplet
    else d st.
Proof.
  revert st. induction ds as [|x ds IH]; intros st; [reflexivity|].
  simpl foldl. rewrite IH, getStep_spec. simpl.
  destruct (matchesMachine machine x); simpl.
  - now destruct (existsb _ ds).
  - reflexivity.
Qed.
End GetLoop.

Section GetDelete.
Context (L : Libs) {B : Type} (getClient : string -> godo_Client B).

(** What [Get] returns once the configuration decodes and the listing
    succeeds: a handle on the last droplet listed when some droplet passes
    the test, [InstanceNotFoundErr] when none does. *)
Lemma Get_listed (machine : Machine) (w : World B) (c : config)
    (pc : option providerconfig_Config) (ds : list godo_Droplet) (b : B) :
  getConfig L (ProviderConfig (Spec machine)) = (Some c, pc, None) ->
  Droplets_List (Droplets (getClient (Token c))) listAll (backend w)
    = ((ds, None), b) ->
  Get L getClient machine w =
    (Returns (if existsb (matchesMachine machine) ds
              then (Some {| droplet := Some (List.last ds zeroDroplet) |}, None)
              else (None, Some InstanceNotFoundErr)),
     {| backend := b; now := now w; trace := trace w ++ [DropletsList] |}).
Proof.
  intros Hc Hl. unfold Get. rewrite Hc. unfold bind, deref, ret, request.
  rewrite Hl. simpl.
  rewrite getLoop_pointer, getLoop_droplet. simpl.
  now destruct (existsb _ ds).
Qed.

(** Every run of [Get] adds nothing to the trace, or one listing. *)
Lemma Get_trace (machine : Machine) (w : World B) :
  trace (Get L getClient machine w).2 = trace w
  \/ trace (Get L getClient machine w).2 = trace w ++ [DropletsList].
Proof.
  unfold Get.
  destruct (getConfig L (ProviderConfig (Spec machine))) as [[c pc] [e|]];
    [now left|].
  unfold bind, deref, ret, panic, request.
  destruct c as [c|]; [|now left].
  destruct (Droplets_List _ _ _) as [[ds [e|]] b]; [now right|].
  simpl. destruct (d _) as [[]|]; now right.
Qed.

Lemma Get_issues_no_delete (machine : Machine) (w : World B) :
  List.filter isDelete (issued w (Get L getClient machine w).2) = [].
Proof.
  unfold issued. destruct (Get_trace machine w) as [-> | ->].
  - now rewrite drop_all.
  - now rewrite drop_app_length.
Qed.

(** A handle from [Get] always points to a droplet. *)
Lemma Get_handle (machine : Machine) (w w1 : World B) (i : doInstance) :
  Get L getClient machine w = (Returns (Some i, None), w1) ->
  exists dr, droplet i = Some dr.
Proof.
  unfold Get.
  destruct (getConfig L (ProviderConfig (Spec machine))) as [[c pc] [e|]];
    [discriminate|].
  unfold bind, deref, ret, panic, request.
  destruct c as [c|]; [|discriminate].
  destruct (Droplets_List _ _ _) as [[ds [e|]] b]; [discriminate|].
  simpl. destruct (d _) as [[]|]; [|discriminate].
  intros [= <- _]. eauto.
Qed.

(** When [Get] yields a handle or [InstanceNotFoundErr], the machine's
    configuration has decoded. *)
Lemma Get_decoded (machine : Machine) (w w1 : World B)
    (r : option doInstance * option error) :
  Get L getClient machine w = (Returns r, w1) ->
  r.2 = None \/ (exists e, r.2 = Some e /\ isInstanceNotFoundErr e = true) ->
  exists c pc, getConfig L (ProviderConfig (Spec machine)) = (Some c, pc, None).
Proof.
  unfold Get.
  destruct (getConfig L (ProviderConfig (Spec machine))) as [[c pc] [e0|]].
  - intros [= <- _] [H | (e & H & He)]; simpl in *; [discriminate|].
    injection H as <-. discriminate.
  - destruct c as [c|]; [eauto | discriminate].
Qed.

(** [Delete] when [Get] reports that the instance is not there. *)
Lemma Delete_not_found (machine : Machine) (w w1 : World B)
    (i : option doInstance) (e : error) :
  Get L getClient machine w = (Returns (i, Some e), w1) ->
  isInstanceNotFoundErr e = true ->
  Delete L getClient machine w = (Returns None, w1).
Proof.
  intros Hget He.
  destruct (Get_decoded machine w w1 _ Hget) as (c & pc & Hc); [right; eauto|].
  unfold Delete. rewrite Hc. cbv [bind deref ret].
  now rewrite Hget, He.
Qed.

(** [Delete] when [Get] yields a handle: one delete request, keyed by the
    ID of the handle's droplet. *)
Lemma Delete_found (machine : Machine) (w w1 : World B)
    (i : doInstance) (dr : godo_Droplet) :
  Get L getClient machine w = (Returns (Some i, None), w1) ->
  droplet i = Some dr ->
  isInt (Droplet_ID dr) ->
  exists c pc,
    getConfig L (ProviderConfig (Spec machine)) = (Some c, pc, None)
    /\ Delete L getClient machine w =
        request (DropletsDelete (Droplet_ID dr))
                (Droplets_Delete (Droplets (getClient (Token c))) (Droplet_ID dr))
                w1.
Proof.
  intros Hget Hdr Hint.
  destruct (Get_decoded machine w w1 _ Hget) as (c & pc & Hc); [now left|].
  exists c, pc. split; [exact Hc|].
  unfold Delete. rewrite Hc. cbv [bind deref ret ID].
  rewrite Hget, Hdr. now rewrite (Atoi_Itoa _ Hint).
Qed.
End GetDelete.



(** C5, at the failing input: the account lists [dropletA] and [dropletB],
    which share the name [node]; only [dropletA] carries the tag [uid-a] of
    [machineA].  [Get] for [machineA] returns the handle on [dropletB]: the
    pointer it keeps is the address of the loop variable, which holds the
    last droplet listed when the loop ends. *)
Theorem Get_returns_the_namesake :
  Get fakeLibs (memClient fakeFingerprintOf) machineA
      (start (account [dropletA; dropletB]))
  = (Returns (Some {| droplet := Some dropletB |}, None),
     {| backend := account [dropletA; dropletB]; now := 0;
        trace := [DropletsList] |})
  /\ matchesMachine machineA dropletA = true
  /\ Has (NewString (Droplet_Tags dropletB)) (UID machineA) = false.
Proof. repeat split; reflexivity. Qed.

(** ** Package digitalocean: the key registry *)

Section EnsureKeys.
Context (L : Libs) {B : Type} (service : KeysService B).

(** The lookup finds the key. *)
Lemma ensureSSHKeysExist_found (rsa pk : rsa_PublicKey) (w : World B)
    (key : godo_Key) (res : option godo_Response) (b1 : B) :
  ssh_NewPublicKey L rsa = (Some pk, None) ->
  Keys_GetByFingerprint service (ssh_FingerprintLegacyMD5 L pk) (backend w)
    = ((Some key, res, None), b1) ->
  ensureSSHKeysExist L service rsa w =
    (Returns (Key_Fingerprint key, None),
     {| backend := b1; now := now w;
        trace := trace w ++ [KeysGetByFingerprint (ssh_FingerprintLegacyMD5 L pk)] |}).
Proof.
  intros Hpk Hget. unfold ensureSSHKeysExist. rewrite Hpk.
  cbv [bind deref ret request]. now rewrite Hget.
Qed.

(** The lookup reports not-found: the create request follows, and its
    error is not looked at. *)
Lemma ensureSSHKeysExist_not_found (rsa pk : rsa_PublicKey) (w : World B)
    (dokey created : option godo_Key) (res : godo_Response)
    (res' : option godo_Response) (e : error) (err' : option error) (b1 b2 : B) :
  ssh_NewPublicKey L rsa = (Some pk, None) ->
  Keys_GetByFingerprint service (ssh_FingerprintLegacyMD5 L pk) (backend w)
    = ((dokey, Some res, Some e), b1) ->
  StatusCode res = StatusNotFound ->
  Keys_Create service (keyRequest L pk) b1 = ((created, res', err'), b2) ->
  ensureSSHKeysExist L service rsa w =
    (match created with
     | Some key => Returns (Key_Fingerprint key, None)
     | None => Panics nilDereference
     end,
     {| backend := b2; now := now w;
        trace := (trace w ++ [KeysGetByFingerprint (ssh_FingerprintLegacyMD5 L pk)])
                   ++ [KeysCreate (keyRequest L pk)] |}).
Proof.
  intros Hpk Hget Hcode Hcreate. unfold ensureSSHKeysExist. rewrite Hpk.
  cbv [bind deref ret request panic]. rewrite Hget. simpl.
  rewrite Hcode. simpl. fold (keyRequest L pk). rewrite Hcreate.
  now destruct created.
Qed.
End EnsureKeys.

(** C10, at the failing input: the lookup reports not-found and the create
    call fails, handing back a nil key with its error as godo does.  The
    create path does not look at the error, which the lookup path does, and
    reads [dokey.Fingerprint] through the nil key: [ensureSSHKeysExist]
    panics after the two requests and returns nothing, neither a
    fingerprint with a nil error nor the create error. *)
Lemma ensureSSHKeysExist_panics_on_failed_create :
  ensureSSHKeysExist fakeLibs (failingKeys None) publicKey77 (start tt)
  = (Panics nilDereference,
     {| backend := tt; now := 0;
        trace := [KeysGetByFingerprint "77";
                  KeysCreate {| KeyCreate_Name := "machine-controller";
                                KeyCreate_PublicKey := "77" |}] |})
  /\ forall r w, ensureSSHKeysExist fakeLibs (failingKeys None) publicKey77 (start tt)
                 <> (Returns r, w).
Proof. split; [reflexivity | intros r w; discriminate]. Qed.

(** On the not-found path the error of a failing create call is never
    returned to the caller; a service that hands back a key together with
    the error (godo does not) gets that key's fingerprint returned with a
    nil error. *)
Theorem ensureSSHKeysExist_drops_create_error :
  forall (L : Libs) (B : Type) (service : KeysService B) (rsa pk : rsa_PublicKey)
         (w : World B) (dokey created : option godo_Key) (res : godo_Response)
         (res' : option godo_Response) (e e' : error) (b1 b2 : B),
    ssh_NewPublicKey L rsa = (Some pk, None) ->
    Keys_GetByFingerprint service (ssh_FingerprintLegacyMD5 L pk) (backend w)
      = ((dokey, Some res, Some e), b1) ->
    StatusCode res = StatusNotFound ->
    Keys_Create service (keyRequest L pk) b1 = ((created, res', Some e'), b2) ->
    (forall r w', ensureSSHKeysExist L service rsa w = (Returns r, w') -> r.2 = None)
    /\ (forall key, created = Some key ->
         exists w', ensureSSHKeysExist L service rsa w
                    = (Returns (Key_Fingerprint key, None), w')).
Proof.
  intros L B service rsa pk w dokey created res res' e e' b1 b2 Hpk Hget Hcode Hcreate.
  rewrite (ensureSSHKeysExist_not_found L service rsa pk w dokey created res res'
             e (Some e') b1 b2 Hpk Hget Hcode Hcreate).
  split.
  - intros r w'. destruct created; [|discriminate]. now intros [= <- _].
  - intros key ->. eauto.
Qed.

(** The same on a service whose failing create hands back [staleKey]. *)
Lemma ensureSSHKeysExist_drops_create_error_witness :
  (forall r w', ensureSSHKeysExist fakeLibs (failingKeys (Some staleKey))
                  publicKey77 (start tt) = (Returns r, w') -> r.2 = None)
  /\ (forall key, Some staleKey = Some key ->
       exists w', ensureSSHKeysExist fakeLibs (failingKeys (Some staleKey))
                    publicKey77 (start tt)
                  = (Returns (Key_Fingerprint key, None), w')).
Proof.
  apply (ensureSSHKeysExist_drops_create_error fakeLibs unit
           (failingKeys (Some staleKey)) publicKey77 publicKey77 (start tt)
           None (Some staleKey) {| StatusCode := 404 |}
           (Some {| StatusCode := 500 |}) (ErrorResponse 404) (ErrorResponse 500)
           tt tt); reflexivity.
Defined.

Section Registry.
Context (fingerprint : string).

Lemma findKey_Some (ks : list godo_Key) (k : godo_Key) :
  findKey fingerprint ks = Some k ->
  Key_Fingerprint k = fingerprint /\ (1 <= registered fingerprint ks)%nat.
Proof.
  unfold findKey, registered.
  induction ks as [|x ks IH]; simpl; [discriminate|].
  destruct (String.eqb_spec (Key_Fingerprint x) fingerprint) as [Hx|Hx].
  - intros [= <-]. split; [exact Hx | simpl; lia].
  - intros H. now apply IH.
Qed.

Lemma findKey_None (ks : list godo_Key) :
  findKey fingerprint ks = None -> registered fingerprint ks = 0%nat.
Proof.
  unfold findKey, registered.
  induction ks as [|x ks IH]; simpl; [reflexivity|].
  destruct (String.eqb (Key_Fingerprint x) fingerprint); [discriminate|].
  exact IH.
Qed.

Lemma registered_snoc (ks : list godo_Key) (k : godo_Key) :
  Key_Fingerprint k = fingerprint ->
  registered fingerprint (ks ++ [k]) = S (registered fingerprint ks).
Proof.
  intros Hk. unfold registered.
  rewrite List.filter_app, length_app. simpl.
  rewrite Hk, String.eqb_refl. simpl. lia.
Qed.

Lemma findKey_snoc (ks : list godo_Key) (k : godo_Key) :
  findKey fingerprint ks = None ->
  Key_Fingerprint k = fingerprint ->
  findKey fingerprint (ks ++ [k]) = Some k.
Proof.
  unfold findKey. intros Hnone Hk.
  induction ks as [|x ks IH]; simpl in *.
  - now rewrite Hk, String.eqb_refl.
  - destruct (String.eqb (Key_Fingerprint x) fingerprint); [discriminate|].
    now apply IH.
Qed.
End Registry.

(** C8: on a registry keyed by fingerprint that agrees with the client on
    the fingerprint of the key, two calls of [ensureSSHKeysExist] in sequence
    with one key both return the key's fingerprint and leave exactly one
    entry with it; the second call finds the entry, sends the lookup alone
    and leaves the registry as the first call left it, so that the two calls
    send at most one create request. *)
Theorem ensureSSHKeysExist_twice :
  forall (L : Libs) (fingerprintOf : string -> string) (rsa pk : rsa_PublicKey)
         (w : World MemBackend),
    let fp := ssh_FingerprintLegacyMD5 L pk in
    ssh_NewPublicKey L rsa = (Some pk, None) ->
    fingerprintOf (KeyCreate_PublicKey (keyRequest L pk)) = fp ->
    (registered fp (keys (backend w)) <= 1)%nat ->
    exists w1 w2,
      ensureSSHKeysExist L (memKeys fingerprintOf) rsa w = (Returns (fp, None), w1)
      /\ ensureSSHKeysExist L (memKeys fingerprintOf) rsa w1 = (Returns (fp, None), w2)
      /\ registered fp (keys (backend w2)) = 1%nat
      /\ keys (backend w2) = keys (backend w1)
      /\ issued w1 w2 = [KeysGetByFingerprint fp]
      /\ (length (List.filter isKeysCreate (issued w w2)) <= 1)%nat.
Proof.
  intros L fingerprintOf rsa pk w fp Hpk Hagree Hcount.
  destruct (findKey fp (keys (backend w))) as [k|] eqn:Hfind.
  - (* already registered: both calls find the entry *)
    destruct (findKey_Some fp _ _ Hfind) as [Hk Hone].
    assert (Hcall : forall v : World MemBackend,
      backend v = backend w ->
      ensureSSHKeysExist L (memKeys fingerprintOf) rsa v =
        (Returns (fp, None),
         {| backend := backend w; now := now v;
            trace := trace v ++ [KeysGetByFingerprint fp] |})).
    { intros v Hv.
      rewrite (ensureSSHKeysExist_found L (memKeys fingerprintOf) rsa pk v k
                 (Some {| StatusCode := 200 |}) (backend w) Hpk).
      - now rewrite Hk.
      - simpl. unfold memKeysGet. fold fp. now rewrite Hv, Hfind. }
    eexists _, _. split; [apply Hcall; reflexivity|].
    split; [apply Hcall; reflexivity|]. cbn [backend keys].
    split; [lia|]. split; [reflexivity|]. unfold issued. cbn [trace].
    split; [now rewrite drop_app_length|].
    rewrite <- app_assoc, drop_app_length. simpl. lia.
  - (* absent: the first call registers the key, the second finds it *)
    pose proof (findKey_None fp _ Hfind) as Hzero.
    set (k := {| Key_ID := Z.of_nat (length (keys (backend w))) + 1;
                 Key_Name := "machine-controller";
                 Key_Fingerprint := fp;
                 Key_PublicKey := KeyCreate_PublicKey (keyRequest L pk) |}).
    set (b1 := setKeys (backend w) (keys (backend w) ++ [k])).
    assert (H1 : ensureSSHKeysExist L (memKeys fingerprintOf) rsa w =
      (Returns (fp, None),
       {| backend := b1; now := now w;
          trace := (trace w ++ [KeysGetByFingerprint fp])
                     ++ [KeysCreate (keyRequest L pk)] |})).
    { rewrite (ensureSSHKeysExist_not_found L (memKeys fingerprintOf) rsa pk w
                 None (Some k) {| StatusCode := 404 |} (Some {| StatusCode := 201 |})
                 (ErrorResponse 404) None (backend w) b1 Hpk).
      - reflexivity.
      - simpl. unfold memKeysGet. fold fp. now rewrite Hfind.
      - reflexivity.
      - simpl. unfold memKeysCreate. rewrite Hagree. now rewrite Hfind. }
    assert (Hfind1 : findKey fp (keys b1) = Some k)
      by (apply findKey_snoc; [exact Hfind | reflexivity]).
    eexists _, _. split; [exact H1|].
    split.
    { rewrite (ensureSSHKeysExist_found L (memKeys fingerprintOf) rsa pk _ k
                 (Some {| StatusCode := 200 |}) b1 Hpk).
      - reflexivity.
      - simpl. unfold memKeysGet. fold fp. now rewrite Hfind1. }
    cbn [backend]. split.
    { unfold b1. cbn [setKeys keys].
      rewrite registered_snoc by reflexivity. now rewrite Hzero. }
    split; [reflexivity|]. unfold issued. cbn [trace].
    split; [now rewrite drop_app_length|].
    rewrite <- !app_assoc, drop_app_length. simpl. lia.
Qed.

(** C8 on an empty registry, with the test libraries. *)
Lemma ensureSSHKeysExist_twice_witness :
  exists w1 w2,
    ensureSSHKeysExist fakeLibs (memKeys fakeFingerprintOf) publicKey77
      (start (account [])) = (Returns ("77", None), w1)
    /\ ensureSSHKeysExist fakeLibs (memKeys fakeFingerprintOf) publicKey77 w1
       = (Returns ("77", None), w2)
    /\ registered "77" (keys (backend w2)) = 1%nat
    /\ keys (backend w2) = keys (backend w1)
    /\ issued w1 w2 = [KeysGetByFingerprint "77"]
    /\ (length (List.filter isKeysCreate (issued (start (account [])) w2)) <= 1)%nat.
Proof.
  apply (ensureSSHKeysExist_twice fakeLibs fakeFingerprintOf publicKey77 publicKey77
           (start (account []))); [reflexivity | reflexivity | vm_compute; lia].
Defined.

(** ** Package digitalocean: [Validate] *)

Section ValidateFacts.
Context (L : Libs).

Lemma getConfig_ok (raw : bytes) (oc : option config)
    (opc : option providerconfig_Config) :
  getConfig L raw = (oc, opc, None) ->
  exists c pc, oc = Some c /\ opc = Some pc.
Proof.
  unfold getConfig.
  destruct (json_Unmarshal_Config L raw) as [pconfig [e|]]; [discriminate|].
  destruct (json_Unmarshal_config L _) as [c err]. intros [= <- <- _]. eauto.
Qed.

Lemma getSlugForOS_supported (os : string) :
  (getSlugForOS L os).2 = None <-> osSupported L os.
Proof.
  unfold getSlugForOS, osSupported.
  destruct (String.eqb_spec os (OperatingSystemUbuntu L)) as [Hu|Hu]; simpl.
  - tauto.
  - destruct (String.eqb_spec os (OperatingSystemCoreos L)) as [Hc|Hc]; simpl.
    + tauto.
    + split; [discriminate | tauto].
Qed.

Lemma foundRegion_listed (c : config) (rs : list godo_Region) :
  existsb (fun region => String.eqb (Region_Slug region) (Region c)) rs = true
  <-> regionListed c rs.
Proof.
  unfold regionListed. rewrite existsb_exists.
  split; intros (r & Hin & Hr); exists r; split; auto; now apply String.eqb_eq.
Qed.

Lemma regionAvailable_In (c : config) (names : list string) :
  existsb (fun region => String.eqb region (Region c)) names = true
  <-> List.In (Region c) names.
Proof.
  rewrite existsb_exists. split.
  - intros (r & Hin & Hr). apply String.eqb_eq in Hr. now subst.
  - intros Hin. exists (Region c). split; [exact Hin | apply String.eqb_refl].
Qed.

(** The loop over the sizes finds the size exactly when it is not refused;
    it returns early or finds nothing exactly when it is. *)
Lemma validateSizes_spec (c : config) (ss : list godo_Size) :
  match validateSizes c ss with
  | inr true => ~ sizeRefused c ss
  | _ => sizeRefused c ss
  end.
Proof.
  unfold sizeRefused. induction ss as [|sz ss IH]; simpl; [exact I|].
  destruct (String.eqb (Size_Slug sz) (Size c)); [|exact IH].
  destruct (Size_Available sz) eqn:Hav; simpl; [|now left].
  destruct (existsb _ (Size_Regions sz)) eqn:Hre; simpl.
  - apply regionAvailable_In in Hre. intros [H|H]; [discriminate | contradiction].
  - right. intros Hin. apply regionAvailable_In in Hin. congruence.
Qed.
End ValidateFacts.

Ltac refute_accepted Hcfg :=
  let c := fresh "c" in
  let pc := fresh "pc" in
  let rs := fresh "rs" in
  let ss := fresh "ss" in
  let b1 := fresh "b" in
  let b2 := fresh "b" in
  let Hc := fresh "Hc" in
  let Hr := fresh "Hr" in
  let Hs := fresh "Hs" in
  let Hn := fresh "Hn" in
  intros (c & pc & rs & b1 & ss & b2 & Hc & Hr & Hs & Hn);
  rewrite Hcfg in Hc; try discriminate;
  injection Hc as <- <-; revert Hr Hs Hn.

(** C9, amended: [Validate] always returns, and it sends only the region
    and size list requests: nothing, the region listing, or the region
    listing followed by the size listing.  It returns nil exactly when the
    configuration decodes, the region and size listings succeed, and none
    of the refusals holds: token, region or size empty, operating system not
    supported, region not in the backend's list, size absent, unavailable or
    not offered in the region.  In every other case it returns an error. *)
Theorem Validate_accepts_exactly :
  forall (L : Libs) (B : Type) (getClient : string -> godo_Client B)
         (spec : MachineSpec) (w : World B),
  exists (err : option error) (w' : World B),
    Validate L getClient spec w = (Returns err, w')
    /\ (issued w w' = []
        \/ issued w w' = [RegionsList]
        \/ issued w w' = [RegionsList; SizesList])
    /\ (err = None <-> accepted L getClient spec (backend w)).
Proof.
  intros L B getClient spec w. unfold Validate.
  destruct (getConfig L (ProviderConfig spec)) as [[oc opc] [e|]] eqn:Hcfg.
  { eexists _, _. split; [reflexivity|]. unfold issued. rewrite drop_all.
    split; [auto|]. split; [discriminate|]. refute_accepted Hcfg. }
  destruct (getConfig_ok L _ _ _ Hcfg) as (c & pc & -> & ->).
  cbv [bind deref ret].
  destruct (String.eqb_spec (Token c) "") as [Ht|Ht].
  { eexists _, _. split; [reflexivity|]. unfold issued. rewrite drop_all.
    split; [auto|]. split; [discriminate|]. refute_accepted Hcfg. intros Hr0 Hs0 Hn0.
    destruct Hn0. now left. }
  destruct (String.eqb_spec (Region c) "") as [Hr|Hr].
  { eexists _, _. split; [reflexivity|]. unfold issued. rewrite drop_all.
    split; [auto|]. split; [discriminate|]. refute_accepted Hcfg. intros Hr0 Hs0 Hn0.
    destruct Hn0. right. now left. }
  destruct (String.eqb_spec (Size c) "") as [Hs|Hs].
  { eexists _, _. split; [reflexivity|]. unfold issued. rewrite drop_all.
    split; [auto|]. split; [discriminate|]. refute_accepted Hcfg. intros Hr0 Hs0 Hn0.
    destruct Hn0. right. right. now left. }
  pose proof (getSlugForOS_supported L (pc_OperatingSystem pc)) as Hos.
  destruct (getSlugForOS L (pc_OperatingSystem pc)) as [slug [e|]].
  { eexists _, _. split; [reflexivity|]. unfold issued. rewrite drop_all.
    split; [auto|]. split; [discriminate|]. refute_accepted Hcfg. intros Hr0 Hs0 Hn0.
    destruct Hn0. do 3 right. left. intros H. apply Hos in H. discriminate. }
  simpl in Hos. unfold request at 1.
  destruct (Regions_List (getClient (Token c)) listAll (backend w))
    as [[rs [e|]] b1] eqn:Hrs.
  { eexists _, _. split; [reflexivity|]. unfold issued. cbn [trace].
    rewrite drop_app_length.
    split; [auto|]. split; [discriminate|].
    refute_accepted Hcfg. intros Hr0 Hs0 Hn0. rewrite Hrs in Hr0. discriminate. }
  pose proof (foundRegion_listed c rs) as Hfound.
  destruct (existsb _ rs) eqn:Hex; cbn [negb].
  2:{ eexists _, _. split; [reflexivity|]. unfold issued. cbn [trace].
      rewrite drop_app_length.
    split; [auto|]. split; [discriminate|].
      refute_accepted Hcfg. intros Hr0 Hs0 Hn0. rewrite Hrs in Hr0. injection Hr0 as <- <-.
      destruct Hn0. do 4 right. left. intros H. apply Hfound in H. discriminate. }
  unfold request.
  cbn [backend now trace].
  destruct (Sizes_List (getClient (Token c)) listAll b1) as [[ss [e|]] b2] eqn:Hss.
  { eexists _, _. split; [reflexivity|]. unfold issued. cbn [trace].
    rewrite <- app_assoc, drop_app_length.
    split; [auto|].
    split; [discriminate|].
    refute_accepted Hcfg. intros Hr0 Hs0 Hn0. rewrite Hrs in Hr0. injection Hr0 as <- <-.
    rewrite Hss in Hs0. discriminate. }
  pose proof (validateSizes_spec c ss) as Hsizes.
  assert (Hrefute : sizeRefused c ss -> ~ accepted L getClient spec (backend w)).
  { intros Href. refute_accepted Hcfg. intros Hr0 Hs0 Hn0. rewrite Hrs in Hr0. injection Hr0 as <- <-.
    rewrite Hss in Hs0. injection Hs0 as <- <-. destruct Hn0. now do 5 right. }
  destruct (validateSizes c ss) as [e|[|]].
  - eexists _, _. split; [reflexivity|]. unfold issued. cbn [trace].
    rewrite <- app_assoc, drop_app_length.
    split; [auto|].
    split; [discriminate|]. intros H. now destruct (Hrefute Hsizes).
  - eexists _, _. split; [reflexivity|]. unfold issued. cbn [trace].
    rewrite <- app_assoc, drop_app_length.
    split; [auto|].
    split; [|reflexivity]. intros _.
    exists c, pc, rs, b1, ss, b2. repeat split; try assumption.
    intros [H|[H|[H|[H|[H|H]]]]]; try contradiction.
    + apply H, Hos. reflexivity.
    + apply H, Hfound. reflexivity.
  - eexists _, _. split; [reflexivity|]. unfold issued. cbn [trace].
    rewrite <- app_assoc, drop_app_length.
    split; [auto|].
    split; [discriminate|]. intros H. now destruct (Hrefute Hsizes).
Qed.

(** C9, counterexample: the configuration decodes, nothing in it is refused
    against the regions and sizes the backend has, and the region listing
    fails in transit: [Validate] returns that error, not nil. *)
Lemma Validate_returns_transport_fault :
  (Validate fakeLibs (memClient fakeFingerprintOf) (Spec machineA)
            (start unreachable)).1
  = Returns (Some (transportError "dial tcp: i/o timeout"))
  /\ getConfig fakeLibs (ProviderConfig (Spec machineA))
     = (Some fakeConfig, Some ubuntuEnvelope, None)
  /\ ~ refused fakeLibs fakeConfig ubuntuEnvelope
        (regions unreachable) (sizes unreachable).
Proof.
  split; [reflexivity|]. split; [reflexivity|].
  intros [H|[H|[H|[H|[H|H]]]]]; try discriminate.
  - apply H. now left.
  - apply H. eexists. split; [left; reflexivity | reflexivity].
  - vm_compute in H. destruct H as [H|H]; [discriminate|]. apply H. now left.
Qed.

(** ** Package digitalocean: [Create] and the confirmation poll *)

Section PollFacts.
Context {B : Type}.

(** The ticks of the poll of [Create]: every 10 seconds, the first one
    10 seconds after the start and the last one at the fifth minute. *)
Lemma pollTicks_create (n : Z) :
  pollTicks n createCheckPeriod createCheckTimeout
  = (n + createCheckPeriod)
      :: map (fun k => n + Z.of_nat k * createCheckPeriod) (seq 2 29).
Proof.
  unfold pollTicks.
  change (Z.to_nat (createCheckTimeout / createCheckPeriod)) with 30%nat.
  change (seq 1 30) with (1%nat :: seq 2 29). rewrite map_cons.
  f_equal; change (Z.of_nat 1) with 1; lia.
Qed.

(** The condition of [Create] on a failed describe request: it sleeps and
    returns an error. *)
Lemma createCheck_describe_fails (client : godo_Client B) (machine : Machine)
    (dr : godo_Droplet) (w : World B) (reply : option godo_Droplet)
    (e : error) (b : B) :
  Droplets_Get (Droplets client) (Droplet_ID dr) (backend w) = ((reply, Some e), b) ->
  createCheck client machine (Some dr) w =
    (Returns (false, Some (describeFailed (Droplet_ID dr))),
     {| backend := b; now := now w + createCheckFailedWaitPeriod;
        trace := trace w ++ [DropletsGet (Droplet_ID dr)] |}).
Proof.
  intros Hget. unfold createCheck. cbv [bind deref ret request Sleep].
  now rewrite Hget.
Qed.

Lemma createCheckPeriod_pos : 0 < createCheckPeriod.
Proof. reflexivity. Qed.

(** [WaitFor] ends at the first error of its condition. *)
Lemma WaitFor_first_error (t : Z) (later : list Z) (closed : Z)
    (fn : Go (World B) (bool * option error)) (w w' : World B)
    (ok : bool) (e : error) :
  now w < t ->
  fn {| backend := backend w; now := t; trace := trace w |}
    = (Returns (ok, Some e), w') ->
  WaitFor (t :: later) closed fn w = (Returns (Some e), w').
Proof.
  intros Hlt Hfn. cbn [WaitFor]. unfold bind at 1. unfold clock at 1.
  assert (Hlate : (t <=? now w) = false) by (apply Z.leb_gt; exact Hlt).
  rewrite Hlate. unfold bind at 1. unfold sleepUntil at 1.
  rewrite (Z.max_r (now w) t) by lia.
  unfold bind at 1. now rewrite Hfn.
Qed.

(** The poll ends at the first error of its condition: one describe
    request, 10 seconds of ticker and 10 seconds of sleep. *)
Lemma Poll_ends_at_describe_error (client : godo_Client B) (machine : Machine)
    (dr : godo_Droplet) (w : World B) (reply : option godo_Droplet)
    (e : error) (b : B) :
  Droplets_Get (Droplets client) (Droplet_ID dr) (backend w) = ((reply, Some e), b) ->
  Poll createCheckPeriod createCheckTimeout (createCheck client machine (Some dr)) w
  = (Returns (Some (describeFailed (Droplet_ID dr))),
     {| backend := b;
        now := now w + createCheckPeriod + createCheckFailedWaitPeriod;
        trace := trace w ++ [DropletsGet (Droplet_ID dr)] |}).
Proof.
  intros Hget. unfold Poll. unfold bind at 1. unfold clock at 1.
  rewrite pollTicks_create.
  apply WaitFor_first_error with (ok := false).
  - pose proof createCheckPeriod_pos. lia.
  - now rewrite (createCheck_describe_fails client machine dr
                   {| backend := backend w; now := now w + createCheckPeriod;
                      trace := trace w |} reply e b Hget).
Qed.
End PollFacts.

(** C1, at the failing input: the backend accepts the create call and never
    shows the identifier tag.  The poll makes its 31 describe requests, one
    for each of the 30 ticks and one when the timeout closes the channel,
    and ends with [ErrWaitTimeout] at the fifth minute; [Create] returns the
    handle with a nil error: the error of the poll is assigned and not
    read. *)
Theorem Create_succeeds_without_confirmation :
  let r := Create fakeLibs (memClient fakeFingerprintOf) machineA userdata
                  publicKey77 (start untagging) in
  r.1 = Returns (Some {| droplet := Some provisional |}, None)
  /\ now r.2 = createCheckTimeout
  /\ List.filter isDescribe (trace r.2) = repeat (DropletsGet 1) 31
  /\ droplets (backend r.2) = [provisional]
  /\ (Poll createCheckPeriod createCheckTimeout
           (createCheck (memClient fakeFingerprintOf "secret-token") machineA
                        (Some provisional))
           (start (setDroplets untagging [provisional] []))).1
     = Returns (Some ErrWaitTimeout).
Proof. vm_compute. repeat split; reflexivity. Qed.

(** The other half of C1: when the tag shows at the third describe request,
    [Create] returns the handle after three requests, half a minute in. *)
Lemma Create_confirmed_at_third_describe :
  let r := Create fakeLibs (memClient fakeFingerprintOf) machineA userdata
                  publicKey77 (start slow) in
  r.1 = Returns (Some {| droplet := Some tagged |}, None)
  /\ now r.2 = 3 * createCheckPeriod
  /\ List.filter isDescribe (trace r.2) = repeat (DropletsGet 1) 3.
Proof. vm_compute. repeat split; reflexivity. Qed.

(** C2, at the failing input: the first describe request fails in transit;
    the stored droplet carries the tag, so a second request would confirm
    it.  The poll sleeps 10 seconds and ends with the condition's error
    after that one request, 20 seconds in; no describe request follows. *)
Theorem Create_poll_ends_at_first_describe_error :
  let r := Create fakeLibs (memClient fakeFingerprintOf) machineA userdata
                  publicKey77 (start flaky) in
  r.1 = Returns (Some {| droplet := Some tagged |}, None)
  /\ List.filter isDescribe (trace r.2) = [DropletsGet 1]
  /\ now r.2 = createCheckPeriod + createCheckFailedWaitPeriod
  /\ (Poll createCheckPeriod createCheckTimeout
           (createCheck (memClient fakeFingerprintOf "secret-token") machineA
                        (Some tagged))
           (start (setDroplets flaky [tagged] (describes flaky)))).1
     = Returns (Some (describeFailed 1))
  /\ (createCheck (memClient fakeFingerprintOf "secret-token") machineA
                  (Some tagged) r.2).1
     = Returns (true, None).
Proof. vm_compute. repeat split; reflexivity. Qed.

Section CreateFacts.
Context (L : Libs) {B : Type} (getClient : string -> godo_Client B).

(** [ensureSSHKeysExist] talks to the key registry only. *)
Lemma ensureSSHKeysExist_trace (service : KeysService B) (rsa : rsa_PublicKey)
    (w : World B) :
  exists calls,
    trace (ensureSSHKeysExist L service rsa w).2 = trace w ++ calls
    /\ List.filter isDescribe calls = [].
Proof.
  unfold ensureSSHKeysExist.
  destruct (ssh_NewPublicKey L rsa) as [pk [e|]].
  { exists []. now rewrite app_nil_r. }
  destruct pk as [pk|]; cbv [bind deref ret request panic].
  2:{ exists []. now rewrite app_nil_r. }
  destruct (Keys_GetByFingerprint service _ (backend w)) as [[[dokey res] [e|]] b1].
  - destruct res as [res|].
    + destruct (StatusCode res =? StatusNotFound).
      * cbn [backend now trace].
        destruct (Keys_Create service _ b1) as [[[created res'] err'] b2].
        rewrite <- app_assoc. eexists. split; [destruct created; reflexivity|].
        reflexivity.
      * eexists. split; reflexivity.
    + eexists. split; reflexivity.
  - eexists. split; [destruct dokey; reflexivity | reflexivity].
Qed.

(** Once the poll has started, [Create] cannot fail: every run of [Create]
    that returns an error has sent no describe request. *)
Lemma Create_error_before_poll (machine : Machine) (text : string)
    (publicKey : rsa_PublicKey) (w w' : World B) (i : option doInstance)
    (e : error) :
  Create L getClient machine text publicKey w = (Returns (i, Some e), w') ->
  List.filter isDescribe (issued w w') = [].
Proof.
  unfold Create.
  destruct (getConfig L (ProviderConfig (Spec machine))) as [[oc opc] [e0|]].
  { intros [= _ _ <-]. unfold issued. now rewrite drop_all. }
  destruct oc as [c|]; [|discriminate].
  unfold bind at 1. unfold deref at 1. unfold ret at 1. unfold bind at 1.
  destruct (ensureSSHKeysExist_trace (Keys (getClient (Token c))) publicKey w)
    as (calls & Htrace & Hcalls).
  destruct (ensureSSHKeysExist L (Keys (getClient (Token c))) publicKey w)
    as [[[fingerprint [e1|]]|reason] w1]; [| |discriminate].
  { intros [= _ _ <-]. unfold issued. simpl in Htrace. rewrite Htrace.
    now rewrite drop_app_length. }
  destruct opc as [pc|]; [|discriminate].
  unfold bind at 1. unfold deref at 1. unfold ret at 1.
  destruct (getSlugForOS L (pc_OperatingSystem pc)) as [slug [e2|]].
  { intros [= _ _ <-]. unfold issued. simpl in Htrace. rewrite Htrace.
    now rewrite drop_app_length. }
  unfold bind at 1. unfold request at 1.
  destruct (Droplets_Create _ _ (backend w1)) as [[created [e3|]] b2].
  { intros [= _ _ <-]. unfold issued. cbn [trace]. simpl in Htrace.
    rewrite Htrace, <- app_assoc, drop_app_length, List.filter_app, Hcalls.
    reflexivity. }
  unfold bind at 1.
  destruct (Poll _ _ _ _) as [[err|reason] w3]; discriminate.
Qed.
End CreateFacts.


(** * Further results *)

(** ** Package ssh *)

(** X1: for a secret that is there, [keyFromSecret] panics exactly when the
    entry [id_rsa] is present and its bytes hold no PEM block; in every other
    case it returns, and it never changes the state. *)
Theorem keyFromSecret_panics_exactly :
  forall (L : Libs) (S : Type) (sec : ssh.Secret) (s : S),
    ((exists reason, (ssh.keyFromSecret L (Some sec) s).1 = Panics reason)
     <-> (exists b, ssh.Data sec !! ssh.privateKeyDataIndex = Some b
                    /\ ssh.pem_Decode L b = None))
    /\ (ssh.keyFromSecret L (Some sec) s).2 = s.
Proof.
  intros L S sec s. split; [|apply keyFromSecret_state].
  unfold ssh.keyFromSecret, bind, deref, ret, panic.
  destruct (ssh.Data sec !! ssh.privateKeyDataIndex) as [b|] eqn:Hb.
  - destruct (ssh.pem_Decode L b) as [blk|] eqn:Hd; simpl.
    + destruct (x509_ParsePKCS1PrivateKey L (pem_Bytes blk)) as [k [e|]];
        (split; [intros [reason H]; discriminate
                | intros (b' & [= <-] & H); congruence]).
    + split; [intros _; eauto | intros _; eauto].
  - simpl. split; [intros [reason H]; discriminate | intros (b & H & _); discriminate].
Qed.

(** X2: a secret without the entry [id_rsa] yields the error that names the
    secret, and no key: a missing entry is an error value, neither a panic
    nor a fresh key. *)
Theorem keyFromSecret_missing_entry :
  forall (L : Libs) (S : Type) (sec : ssh.Secret) (s : S),
    ssh.Data sec !! ssh.privateKeyDataIndex = None ->
    ssh.keyFromSecret L (Some sec) s
    = (Returns (None, Some (keyDataNotFound sec)), s).
Proof.
  intros L S sec s Hb. unfold ssh.keyFromSecret, bind, deref, ret.
  now rewrite Hb.
Qed.

Lemma keyFromSecret_missing_entry_witness :
  ssh.keyFromSecret fakeLibs (Some emptySecret) tt
  = (Returns (None, Some (keyDataNotFound emptySecret)), tt).
Proof. apply (keyFromSecret_missing_entry fakeLibs unit emptySecret tt). reflexivity. Defined.

(** X3: whenever [keyFromSecret] returns an error it returns no key, and a
    key it returns is the one [x509.ParsePKCS1PrivateKey] read from the
    bytes of the PEM block under [id_rsa]. *)
Theorem keyFromSecret_key_or_error :
  forall (L : Libs) (S : Type) (sec : ssh.Secret) (s s' : S)
         (k : option rsa_PrivateKey) (err : option error),
    ssh.keyFromSecret L (Some sec) s = (Returns (k, err), s') ->
    (err <> None -> k = None)
    /\ (err = None ->
        exists b blk,
          ssh.Data sec !! ssh.privateKeyDataIndex = Some b
          /\ ssh.pem_Decode L b = Some blk
          /\ x509_ParsePKCS1PrivateKey L (pem_Bytes blk) = (k, None)).
Proof.
  intros L S sec s s' k err. unfold ssh.keyFromSecret, bind, deref, ret, panic.
  destruct (ssh.Data sec !! ssh.privateKeyDataIndex) as [b|] eqn:Hb.
  - destruct (ssh.pem_Decode L b) as [blk|] eqn:Hd; simpl; [|discriminate].
    destruct (x509_ParsePKCS1PrivateKey L (pem_Bytes blk)) as [k0 [e|]] eqn:Hp.
    + intros [= <- <- _]. split; [reflexivity | discriminate].
    + intros [= <- <- _]. split; [congruence|]. intros _. eauto.
  - simpl. intros [= <- <- _]. split; [reflexivity | discriminate].
Qed.

Lemma keyFromSecret_key_or_error_witness :
  ((None : option error) <> None -> Some (fakeKey 2) = None)
  /\ ((None : option error) = None ->
      exists b blk,
        ssh.Data winnerSecret !! ssh.privateKeyDataIndex = Some b
        /\ ssh.pem_Decode fakeLibs b = Some blk
        /\ x509_ParsePKCS1PrivateKey fakeLibs (pem_Bytes blk)
           = (Some (fakeKey 2), None)).
Proof.
  apply (keyFromSecret_key_or_error fakeLibs unit winnerSecret tt tt
           (Some (fakeKey 2)) None). reflexivity.
Defined.

(** X4: [EnsureSSHKeypairSecret] always reads the secret first and writes at
    most once.  It writes only when the read reported not-found and the key
    generator and the PEM encoder succeeded, and what it writes is the secret
    [machine-controller-ssh-key] of type Opaque whose only entry is the
    encoded key under [id_rsa]. *)
Theorem EnsureSSHKeypairSecret_requests :
  forall (L : Libs) (St : Type) (client : ssh.SecretInterface St)
         (w : ssh.World St),
    let read := ssh.GetSecret ssh.NamespaceSystem ssh.secretName in
    ssh.requests (ssh.EnsureSSHKeypairSecret L client w).2
      = ssh.requests w ++ [read]
    \/ exists s0 e st1 key buf,
         ssh.secrets_Get client ssh.NamespaceSystem ssh.secretName (ssh.store w)
           = ((s0, Some e), st1)
         /\ IsNotFound e = true
         /\ NewPrivateKey L = (Some key, None)
         /\ pem_Encode L (keyBlock L key) = (buf, None)
         /\ ssh.requests (ssh.EnsureSSHKeypairSecret L client w).2
            = ssh.requests w
                ++ [read; ssh.CreateSecret ssh.NamespaceSystem (newSecret buf)].
Proof.
  intros L St client w read.
  set (run := ssh.EnsureSSHKeypairSecret L client w).
  assert (Hrun : run = ssh.EnsureSSHKeypairSecret L client w) by reflexivity.
  clearbody run. unfold ssh.EnsureSSHKeypairSecret, bind, ssh.Get in Hrun.
  destruct (ssh.secrets_Get client _ _ (ssh.store w)) as [[s0 [e|]] st1] eqn:Hget.
  2:{ left. subst run. rewrite keyFromSecret_state. reflexivity. }
  destruct (IsNotFound e) eqn:Hnf; [|left; now subst run].
  destruct (NewPrivateKey L) as [pk [e1|]] eqn:Hgen; [left; now subst run|].
  destruct pk as [key|]; [|left; now subst run].
  unfold deref, ret in Hrun. fold (keyBlock L key) in Hrun.
  destruct (pem_Encode L (keyBlock L key)) as [buf [e2|]] eqn:Henc;
    [left; now subst run|].
  right. exists s0, e, st1, key, buf. repeat split; try assumption.
  unfold ssh.Create in Hrun. cbn [ssh.store ssh.requests] in Hrun.
  fold (newSecret buf) in Hrun.
  destruct (ssh.secrets_Create client ssh.NamespaceSystem (newSecret buf) st1)
    as [[s1 [e3|]] st2]; subst run; cbn; now rewrite <- app_assoc.
Qed.

(** X5: an error of the read that is not a not-found error is returned as
    it is, without a key; nothing is generated and nothing is written. *)
Theorem EnsureSSHKeypairSecret_read_error :
  forall (L : Libs) (St : Type) (client : ssh.SecretInterface St)
         (w : ssh.World St) (s0 : option ssh.Secret) (e : error) (st1 : St),
    ssh.secrets_Get client ssh.NamespaceSystem ssh.secretName (ssh.store w)
      = ((s0, Some e), st1) ->
    IsNotFound e = false ->
    ssh.EnsureSSHKeypairSecret L client w
    = (Returns (None, Some e),
       {| ssh.store := st1;
          ssh.requests :=
            ssh.requests w ++ [ssh.GetSecret ssh.NamespaceSystem ssh.secretName] |}).
Proof.
  intros L St client w s0 e st1 Hget Hnf.
  unfold ssh.EnsureSSHKeypairSecret, bind, ssh.Get. rewrite Hget. cbn.
  now rewrite Hnf.
Qed.

Lemma EnsureSSHKeypairSecret_read_error_witness :
  ssh.EnsureSSHKeypairSecret fakeLibs forbiddenStore
    {| ssh.store := tt; ssh.requests := [] |}
  = (Returns (None, Some (StatusError (StatusReasonOther "Forbidden"))),
     {| ssh.store := tt;
        ssh.requests := [ssh.GetSecret ssh.NamespaceSystem ssh.secretName] |}).
Proof.
  apply (EnsureSSHKeypairSecret_read_error fakeLibs unit forbiddenStore
           {| ssh.store := tt; ssh.requests := [] |} None
           (StatusError (StatusReasonOther "Forbidden")) tt); reflexivity.
Defined.

(** X6: on a store that holds no secret of the name and that nobody else
    writes to, [EnsureSSHKeypairSecret] returns the generated key and leaves
    the written secret under the name in the system namespace; every other
    stored secret is as it was. *)
Theorem EnsureSSHKeypairSecret_first_call :
  forall (L : Libs) (o : gmap (string * string) ssh.Secret)
         (key : rsa_PrivateKey) (buf : bytes),
    o !! (ssh.NamespaceSystem, ssh.secretName) = None ->
    NewPrivateKey L = (Some key, None) ->
    pem_Encode L (keyBlock L key) = (buf, None) ->
    ssh.EnsureSSHKeypairSecret L ssh.memSecrets
      {| ssh.store := {| ssh.objects := o; ssh.rivals := [] |};
         ssh.requests := [] |}
    = (Returns (Some key, None),
       {| ssh.store :=
            {| ssh.objects :=
                 <[(ssh.NamespaceSystem, ssh.secretName) :=
                     ssh.inNamespace ssh.NamespaceSystem (newSecret buf)]> o;
               ssh.rivals := [] |};
          ssh.requests :=
            [ssh.GetSecret ssh.NamespaceSystem ssh.secretName;
             ssh.CreateSecret ssh.NamespaceSystem (newSecret buf)] |}).
Proof.
  intros L o key buf Habsent Hgen Henc.
  unfold ssh.EnsureSSHKeypairSecret, bind, ssh.Get. cbn.
  unfold ssh.memGet, ssh.serveRivals. cbn. rewrite Habsent. cbn.
  rewrite Hgen. cbn. fold (keyBlock L key). rewrite Henc.
  unfold bind, ssh.Create. cbn. unfold ssh.memCreate, ssh.serveRivals. cbn.
  fold (newSecret buf).
  change (ssh.Name (newSecret buf)) with ssh.secretName.
  now rewrite Habsent.
Qed.

Lemma EnsureSSHKeypairSecret_first_call_witness :
  ssh.EnsureSSHKeypairSecret fakeLibs ssh.memSecrets freshWorld
  = (Returns (Some (fakeKey 1), None),
     {| ssh.store :=
          {| ssh.objects :=
               <[(ssh.NamespaceSystem, ssh.secretName) :=
                   ssh.inNamespace ssh.NamespaceSystem
                     (newSecret (fakeMarker ++ [x01]))]> ∅;
             ssh.rivals := [] |};
        ssh.requests :=
          [ssh.GetSecret ssh.NamespaceSystem ssh.secretName;
           ssh.CreateSecret ssh.NamespaceSystem (newSecret (fakeMarker ++ [x01]))] |}).
Proof.
  apply (EnsureSSHKeypairSecret_first_call fakeLibs ∅ (fakeKey 1)
           (fakeMarker ++ [x01])); reflexivity.
Defined.

Lemma keyFromSecret_reads_key (L : Libs) {S : Type} (sec : ssh.Secret)
    (b : bytes) (blk : pem_Block) (k : option rsa_PrivateKey) (s : S) :
  ssh.Data sec !! ssh.privateKeyDataIndex = Some b ->
  ssh.pem_Decode L b = Some blk ->
  x509_ParsePKCS1PrivateKey L (pem_Bytes blk) = (k, None) ->
  ssh.keyFromSecret L (Some sec) s = (Returns (k, None), s).
Proof.
  intros Hb Hd Hp. unfold ssh.keyFromSecret, bind, deref, ret.
  now rewrite Hb, Hd, Hp.
Qed.

(** X7: the keypair is created once.  When the libraries read back what
    they wrote (the encoded key decodes to a block that parses to the key),
    a second call on the store the first call left returns the same key and
    sends the read alone: the store is not written again. *)
Theorem EnsureSSHKeypairSecret_second_call :
  forall (L : Libs) (o : gmap (string * string) ssh.Secret)
         (key : rsa_PrivateKey) (buf : bytes) (blk : pem_Block),
    o !! (ssh.NamespaceSystem, ssh.secretName) = None ->
    NewPrivateKey L = (Some key, None) ->
    pem_Encode L (keyBlock L key) = (buf, None) ->
    ssh.pem_Decode L buf = Some blk ->
    x509_ParsePKCS1PrivateKey L (pem_Bytes blk) = (Some key, None) ->
    exists w1,
      ssh.EnsureSSHKeypairSecret L ssh.memSecrets
        {| ssh.store := {| ssh.objects := o; ssh.rivals := [] |};
           ssh.requests := [] |}
      = (Returns (Some key, None), w1)
      /\ ssh.EnsureSSHKeypairSecret L ssh.memSecrets w1
         = (Returns (Some key, None),
            {| ssh.store := ssh.store w1;
               ssh.requests :=
                 ssh.requests w1
                   ++ [ssh.GetSecret ssh.NamespaceSystem ssh.secretName] |}).
Proof.
  intros L o key buf blk Habsent Hgen Henc Hdec Hparse.
  eexists. split.
  - apply EnsureSSHKeypairSecret_first_call; eassumption.
  - unfold ssh.EnsureSSHKeypairSecret, bind, ssh.Get.
    cbn [ssh.store ssh.requests ssh.memSecrets ssh.secrets_Get].
    unfold ssh.memGet, ssh.serveRivals. cbn [ssh.rivals ssh.objects].
    rewrite lookup_insert_eq.
    now rewrite (keyFromSecret_reads_key L
                   (ssh.inNamespace ssh.NamespaceSystem (newSecret buf))
                   buf blk (Some key) _ (lookup_singleton_eq _ _) Hdec Hparse).
Qed.

Lemma EnsureSSHKeypairSecret_second_call_witness :
  exists w1,
    ssh.EnsureSSHKeypairSecret fakeLibs ssh.memSecrets freshWorld
    = (Returns (Some (fakeKey 1), None), w1)
    /\ ssh.EnsureSSHKeypairSecret fakeLibs ssh.memSecrets w1
       = (Returns (Some (fakeKey 1), None),
          {| ssh.store := ssh.store w1;
             ssh.requests :=
               ssh.requests w1
                 ++ [ssh.GetSecret ssh.NamespaceSystem ssh.secretName] |}).
Proof.
  apply (EnsureSSHKeypairSecret_second_call fakeLibs ∅ (fakeKey 1)
           (fakeMarker ++ [x01])
           {| pem_Type := "RSA PRIVATE KEY"; pem_Headers := ∅;
              pem_Bytes := [x01] |}); reflexivity.
Defined.

(** ** Package digitalocean: configuration *)

(** X8: [getSlugForOS] knows two operating systems.  It returns a nil error
    exactly for them, and then a non-empty image slug; for every other
    value it returns the empty slug with [ErrOSNotSupported]. *)
Theorem getSlugForOS_slug :
  forall (L : Libs) (os : string),
    let r := getSlugForOS L os in
    (r.2 = None <-> osSupported L os)
    /\ (r.2 = None -> r.1 = "ubuntu-16-04-x64" \/ r.1 = "coreos-stable")
    /\ (r.2 <> None -> r = ("", Some ErrOSNotSupported)).
Proof.
  intros L os r. split; [apply getSlugForOS_supported|].
  subst r. unfold getSlugForOS.
  destruct (String.eqb os (OperatingSystemUbuntu L)); simpl.
  - split; [now left | congruence].
  - destruct (String.eqb os (OperatingSystemCoreos L)); simpl.
    + split; [now right | congruence].
    + split; [discriminate | reflexivity].
Qed.

(** X9: the pointers of [getConfig].  With a nil error both the payload and
    the envelope are non-nil, so that the callers, which look at the error
    alone, never read through a nil pointer.  The two are nil together, and
    then the error is the one of the envelope's decoder: the payload is not
    decoded at all. *)
Theorem getConfig_pointers :
  forall (L : Libs) (raw : bytes),
    let r := getConfig L raw in
    (r.2 = None -> is_Some r.1.1 /\ is_Some r.1.2)
    /\ (r.1.1 = None <-> r.1.2 = None)
    /\ (r.1.1 = None ->
        r.2 <> None /\ r.2 = (json_Unmarshal_Config L raw).2).
Proof.
  intros L raw r. subst r. unfold getConfig.
  destruct (json_Unmarshal_Config L raw) as [pconfig [e|]]; simpl.
  - repeat split; try discriminate; reflexivity.
  - destruct (json_Unmarshal_config L _) as [c err]. simpl.
    repeat split; eauto; discriminate.
Qed.

(** X10: a configuration that does not decode stops every operation before
    it talks to the backend: [Validate], [Get], [Delete] and [Create] return
    the decoder's error wrapped in "failed to parse config", without handle,
    and the world, trace included, is as it was. *)
Theorem undecodable_config_stops_everything :
  forall (L : Libs) (B : Type) (getClient : string -> godo_Client B)
         (machine : Machine) (text : string) (publicKey : rsa_PublicKey)
         (w : World B) (e : error),
    (getConfig L (ProviderConfig (Spec machine))).2 = Some e ->
    Validate L getClient (Spec machine) w = (Returns (Some (parseFailed e)), w)
    /\ Get L getClient machine w = (Returns (None, Some (parseFailed e)), w)
    /\ Delete L getClient machine w = (Returns (Some (parseFailed e)), w)
    /\ Create L getClient machine text publicKey w
       = (Returns (None, Some (parseFailed e)), w).
Proof.
  intros L B getClient machine text publicKey w e.
  unfold Validate, Get, Delete, Create.
  destruct (getConfig L (ProviderConfig (Spec machine))) as [[oc opc] err].
  simpl. intros ->. repeat split; reflexivity.
Qed.

Lemma undecodable_config_stops_everything_witness :
  Validate fakeLibs (memClient fakeFingerprintOf) (Spec machineBlank)
           (start (account [dropletA]))
  = (Returns (Some (parseFailed (transportError "unexpected end of JSON input"))),
     start (account [dropletA]))
  /\ Get fakeLibs (memClient fakeFingerprintOf) machineBlank
         (start (account [dropletA]))
     = (Returns (None, Some (parseFailed (transportError "unexpected end of JSON input"))),
        start (account [dropletA]))
  /\ Delete fakeLibs (memClient fakeFingerprintOf) machineBlank
            (start (account [dropletA]))
     = (Returns (Some (parseFailed (transportError "unexpected end of JSON input"))),
        start (account [dropletA]))
  /\ Create fakeLibs (memClient fakeFingerprintOf) machineBlank userdata
            publicKey77 (start (account [dropletA]))
     = (Returns (None, Some (parseFailed (transportError "unexpected end of JSON input"))),
        start (account [dropletA])).
Proof.
  apply (undecodable_config_stops_everything fakeLibs MemBackend
           (memClient fakeFingerprintOf) machineBlank userdata publicKey77
           (start (account [dropletA]))
           (transportError "unexpected end of JSON input")).
  reflexivity.
Defined.

(** ** Package digitalocean: [Validate] *)

(** X11: [Validate] checks the specification itself before it asks the
    backend.  A run that sends any request has decoded a configuration with
    a non-empty token, region and size and a supported operating system; and
    the sizes are listed only after the region listing succeeded and showed
    the requested region. *)
Theorem Validate_asks_after_local_checks :
  forall (L : Libs) (B : Type) (getClient : string -> godo_Client B)
         (spec : MachineSpec) (w : World B),
    issued w (Validate L getClient spec w).2 <> [] ->
    exists c pc,
      getConfig L (ProviderConfig spec) = (Some c, Some pc, None)
      /\ Token c <> "" /\ Region c <> "" /\ Size c <> ""
      /\ osSupported L (pc_OperatingSystem pc)
      /\ (issued w (Validate L getClient spec w).2 = [RegionsList]
          \/ (issued w (Validate L getClient spec w).2 = [RegionsList; SizesList]
              /\ exists rs b1,
                   Regions_List (getClient (Token c)) listAll (backend w)
                     = ((rs, None), b1)
                   /\ regionListed c rs)).
Proof.
  intros L B getClient spec w.
  set (run := Validate L getClient spec w).
  assert (Hrun : run = Validate L getClient spec w) by reflexivity.
  clearbody run. unfold Validate in Hrun.
  destruct (getConfig L (ProviderConfig spec)) as [[oc opc] [e|]] eqn:Hcfg.
  { subst run. unfold issued. cbn. rewrite drop_all. congruence. }
  destruct (getConfig_ok L _ _ _ Hcfg) as (c & pc & -> & ->).
  cbv [bind deref ret] in Hrun.
  destruct (String.eqb_spec (Token c) "") as [Ht|Ht].
  { subst run. unfold issued. cbn. rewrite drop_all. congruence. }
  destruct (String.eqb_spec (Region c) "") as [Hr|Hr].
  { subst run. unfold issued. cbn. rewrite drop_all. congruence. }
  destruct (String.eqb_spec (Size c) "") as [Hs|Hs].
  { subst run. unfold issued. cbn. rewrite drop_all. congruence. }
  pose proof (getSlugForOS_supported L (pc_OperatingSystem pc)) as Hos.
  destruct (getSlugForOS L (pc_OperatingSystem pc)) as [slug [e|]].
  { subst run. unfold issued. cbn. rewrite drop_all. congruence. }
  simpl in Hos. intros _. exists c, pc.
  split; [reflexivity|]. repeat (split; [assumption|]).
  split; [now apply Hos|].
  unfold request at 1 in Hrun.
  destruct (Regions_List (getClient (Token c)) listAll (backend w))
    as [[rs [e|]] b1] eqn:Hrs.
  { left. subst run. unfold issued. cbn [trace snd].
    now rewrite drop_app_length. }
  pose proof (foundRegion_listed c rs) as Hfound.
  destruct (existsb _ rs) eqn:Hex; cbn [negb] in Hrun.
  2:{ left. subst run. unfold issued. cbn [trace snd].
      now rewrite drop_app_length. }
  right. split.
  - unfold request in Hrun. cbn [backend now trace] in Hrun.
    destruct (Sizes_List (getClient (Token c)) listAll b1) as [[ss [e|]] b2].
    + subst run. unfold issued. cbn [trace snd].
      now rewrite <- app_assoc, drop_app_length.
    + destruct (validateSizes c ss) as [e|[|]]; subst run; unfold issued;
        cbn [trace snd negb]; now rewrite <- app_assoc, drop_app_length.
  - exists rs, b1. split; [reflexivity | now apply Hfound].
Qed.

Lemma Validate_asks_after_local_checks_witness :
  exists c pc,
    getConfig fakeLibs (ProviderConfig (Spec machineA)) = (Some c, Some pc, None)
    /\ Token c <> "" /\ Region c <> "" /\ Size c <> ""
    /\ osSupported fakeLibs (pc_OperatingSystem pc)
    /\ (issued (start (account []))
               (Validate fakeLibs (memClient fakeFingerprintOf) (Spec machineA)
                         (start (account []))).2 = [RegionsList]
        \/ (issued (start (account []))
                   (Validate fakeLibs (memClient fakeFingerprintOf) (Spec machineA)
                             (start (account []))).2 = [RegionsList; SizesList]
            /\ exists rs b1,
                 Regions_List (memClient fakeFingerprintOf (Token c)) listAll
                              (backend (start (account [])))
                   = ((rs, None), b1)
                 /\ regionListed c rs)).
Proof.
  apply (Validate_asks_after_local_checks fakeLibs MemBackend
           (memClient fakeFingerprintOf) (Spec machineA) (start (account []))).
  vm_compute. discriminate.
Defined.

(** ** Package digitalocean: [Get] and [Delete] *)

(** X12: [Get] never panics and returns exactly one of a handle and an
    error; the handle always points to a droplet; and a run sends at most
    one request, the droplet listing, so that [Get] never changes the
    backend. *)
Theorem Get_total :
  forall (L : Libs) (B : Type) (getClient : string -> godo_Client B)
         (machine : Machine) (w : World B),
  exists r w',
    Get L getClient machine w = (Returns r, w')
    /\ ((exists dr, r = (Some {| droplet := Some dr |}, None))
        \/ (exists e, r = (None, Some e)))
    /\ (issued w w' = [] \/ issued w w' = [DropletsList]).
Proof.
  intros L B getClient machine w. unfold Get.
  destruct (getConfig L (ProviderConfig (Spec machine))) as [[oc opc] [e|]] eqn:Hcfg.
  { eexists _, _. split; [reflexivity|]. split; [right; eauto|].
    left. unfold issued. now rewrite drop_all. }
  destruct (getConfig_ok L _ _ _ Hcfg) as (c & pc & -> & ->).
  cbv [bind deref ret request].
  destruct (Droplets_List _ _ _) as [[ds [e|]] b].
  { eexists _, _. split; [reflexivity|]. split; [right; eauto|].
    right. unfold issued. cbn [trace]. now rewrite drop_app_length. }
  destruct (d _) as [[]|]; eexists _, _; (split; [reflexivity|]);
    (split; [eauto|]); right; unfold issued; cbn [trace];
    now rewrite drop_app_length.
Qed.

(** X13: what [Get] makes of the listing.  When the configuration decodes
    and the listing succeeds, [Get] returns [InstanceNotFoundErr] exactly
    when no listed droplet has both the machine's name and its UID among the
    tags; otherwise it returns a handle, and the handle is on the droplet
    the listing ends with. *)
Theorem Get_after_listing :
  forall (L : Libs) (B : Type) (getClient : string -> godo_Client B)
         (machine : Machine) (w : World B) (c : config)
         (pc : option providerconfig_Config) (ds : list godo_Droplet) (b : B),
    getConfig L (ProviderConfig (Spec machine)) = (Some c, pc, None) ->
    Droplets_List (Droplets (getClient (Token c))) listAll (backend w)
      = ((ds, None), b) ->
    exists r w',
      Get L getClient machine w = (Returns r, w')
      /\ backend w' = b
      /\ (r = (None, Some InstanceNotFoundErr)
          <-> forall x, List.In x ds -> matchesMachine machine x = false)
      /\ (r <> (None, Some InstanceNotFoundErr) ->
          r = (Some {| droplet := Some (List.last ds zeroDroplet) |}, None)).
Proof.
  intros L B getClient machine w c pc ds b Hc Hl.
  rewrite (Get_listed L getClient machine w c pc ds b Hc Hl).
  eexists _, _. split; [reflexivity|]. split; [reflexivity|].
  destruct (existsb (matchesMachine machine) ds) eqn:Hex.
  - split; [|reflexivity]. split; [discriminate|].
    intros Hall. apply existsb_exists in Hex as (x & Hin & Hx).
    rewrite (Hall x Hin) in Hx. discriminate.
  - split; [|congruence]. split; [|reflexivity].
    intros _ x Hin. destruct (matchesMachine machine x) eqn:Hx; [|reflexivity].
    assert (existsb (matchesMachine machine) ds = true)
      by (apply existsb_exists; eauto). congruence.
Qed.

Lemma Get_after_listing_witness :
  exists r w',
    Get fakeLibs (memClient fakeFingerprintOf) machineA (start (account [dropletA]))
    = (Returns r, w')
    /\ backend w' = account [dropletA]
    /\ (r = (None, Some InstanceNotFoundErr)
        <-> forall x, List.In x [dropletA] -> matchesMachine machineA x = false)
    /\ (r <> (None, Some InstanceNotFoundErr) ->
        r = (Some {| droplet := Some (List.last [dropletA] zeroDroplet) |}, None)).
Proof.
  apply (Get_after_listing fakeLibs MemBackend (memClient fakeFingerprintOf)
           machineA (start (account [dropletA])) fakeConfig (Some ubuntuEnvelope)
           [dropletA] (account [dropletA])); reflexivity.
Defined.

(** X14: [Delete] sends at most one delete request, and sends it only after
    [Get] has returned a handle; a run in which [Get] returns an error, of
    whatever kind, deletes nothing. *)
Theorem Delete_deletes_at_most_once :
  forall (L : Libs) (B : Type) (getClient : string -> godo_Client B)
         (machine : Machine) (w : World B),
    List.filter isDelete (issued w (Delete L getClient machine w).2) = []
    \/ exists i w1 id,
         Get L getClient machine w = (Returns (Some i, None), w1)
         /\ List.filter isDelete (issued w (Delete L getClient machine w).2)
            = [DropletsDelete id].
Proof.
  intros L B getClient machine w.
  set (run := Delete L getClient machine w).
  assert (Hrun : run = Delete L getClient machine w) by reflexivity.
  clearbody run. unfold Delete in Hrun.
  destruct (getConfig L (ProviderConfig (Spec machine))) as [[oc opc] [e|]] eqn:Hcfg.
  { left. subst run. unfold issued. cbn. now rewrite drop_all. }
  destruct (getConfig_ok L _ _ _ Hcfg) as (c & pc & -> & ->).
  cbv [bind deref ret] in Hrun.
  pose proof (Get_issues_no_delete L getClient machine w) as Hnone.
  pose proof (Get_trace L getClient machine w) as Htrace.
  destruct (Get L getClient machine w) as [[[i [e|]]|reason] w1] eqn:Hget.
  - left. destruct (isInstanceNotFoundErr e); now subst run.
  - destruct i as [i|]; [|left; now subst run].
    right. cbv [ID bind deref ret panic] in Hrun.
    destruct (droplet i) as [dr|] eqn:Hdi.
    + destruct (Atoi (Itoa (Droplet_ID dr))) as [doID err]. unfold request in Hrun.
      destruct (Droplets_Delete _ doID (backend w1)) as [res b2].
      exists i, w1, doID. split; [reflexivity|]. subst run.
      unfold issued in *. cbn [trace snd] in *.
      destruct Htrace as [-> | ->].
      * now rewrite drop_app_length.
      * now rewrite <- app_assoc, drop_app_length.
    + destruct (Get_handle L getClient machine w w1 i Hget) as [dr Hdr].
      congruence.
  - left. now subst run.
Qed.

(** X15: every error of [Get] other than [InstanceNotFoundErr], a failed
    listing among them, is returned by [Delete] as it is, and nothing is
    deleted: only "not found" counts as already deleted. *)
Theorem Delete_returns_other_errors :
  forall (L : Libs) (B : Type) (getClient : string -> godo_Client B)
         (machine : Machine) (w w1 : World B) (i : option doInstance) (e : error),
    Get L getClient machine w = (Returns (i, Some e), w1) ->
    isInstanceNotFoundErr e = false ->
    Delete L getClient machine w = (Returns (Some e), w1)
    /\ List.filter isDelete (issued w w1) = [].
Proof.
  intros L B getClient machine w w1 i e Hget He. split.
  - unfold Delete. revert Hget. unfold Get at 1.
    destruct (getConfig L (ProviderConfig (Spec machine))) as [[oc opc] [e0|]] eqn:Hcfg.
    + now intros [= _ <- <-].
    + destruct (getConfig_ok L _ _ _ Hcfg) as (c & pc & -> & ->).
      intros Hget. assert (Hget' : Get L getClient machine w = (Returns (i, Some e), w1)).
      { unfold Get. rewrite Hcfg. exact Hget. }
      cbv [bind deref ret]. now rewrite Hget', He.
  - pose proof (Get_issues_no_delete L getClient machine w) as H.
    now rewrite Hget in H.
Qed.

Lemma Delete_returns_other_errors_witness :
  Delete fakeLibs downClient machineA (start tt)
  = (Returns (Some (Errorf "failed to get droplets: %v" [FmtError connectionRefused])),
     {| backend := tt; now := 0; trace := [DropletsList] |})
  /\ List.filter isDelete
       (issued (start tt) {| backend := tt; now := 0; trace := [DropletsList] |}) = [].
Proof.
  apply (Delete_returns_other_errors fakeLibs unit downClient machineA (start tt)
           {| backend := tt; now := 0; trace := [DropletsList] |} None
           (Errorf "failed to get droplets: %v" [FmtError connectionRefused]));
    reflexivity.
Defined.

(** ** Package digitalocean: key registration *)

(** X16: a failed lookup that does not answer 404, or that comes without a
    response, is returned wrapped in "failed to get key from digitalocean",
    with the empty fingerprint; the registry gets no create request. *)
Theorem ensureSSHKeysExist_lookup_error :
  forall (L : Libs) (B : Type) (service : KeysService B) (rsa pk : rsa_PublicKey)
         (w : World B) (dokey : option godo_Key) (res : option godo_Response)
         (e : error) (b1 : B),
    ssh_NewPublicKey L rsa = (Some pk, None) ->
    Keys_GetByFingerprint service (ssh_FingerprintLegacyMD5 L pk) (backend w)
      = ((dokey, res, Some e), b1) ->
    (forall r, res = Some r -> StatusCode r <> StatusNotFound) ->
    ensureSSHKeysExist L service rsa w
    = (Returns ("", Some (Errorf "failed to get key from digitalocean: %v"
                                 [FmtError e])),
       {| backend := b1; now := now w;
          trace := trace w ++ [KeysGetByFingerprint (ssh_FingerprintLegacyMD5 L pk)] |}).
Proof.
  intros L B service rsa pk w dokey res e b1 Hpk Hget Hres.
  unfold ensureSSHKeysExist. rewrite Hpk.
  cbv [bind deref ret request]. rewrite Hget.
  destruct res as [r|]; [|reflexivity].
  destruct (Z.eqb_spec (StatusCode r) StatusNotFound) as [Heq|Hne]; [|reflexivity].
  now destruct (Hres r eq_refl).
Qed.

Lemma ensureSSHKeysExist_lookup_error_witness :
  ensureSSHKeysExist fakeLibs (Keys (downClient "secret-token")) publicKey77 (start tt)
  = (Returns ("", Some (Errorf "failed to get key from digitalocean: %v"
                               [FmtError connectionRefused])),
     {| backend := tt; now := 0; trace := [KeysGetByFingerprint "77"] |}).
Proof.
  apply (ensureSSHKeysExist_lookup_error fakeLibs unit (Keys (downClient "secret-token"))
           publicKey77 publicKey77 (start tt) None None connectionRefused tt);
    [reflexivity | reflexivity | intros r H; discriminate].
Defined.

(** X17: the requests of [ensureSSHKeysExist].  A run sends nothing, or the
    lookup by the key's MD5 fingerprint, or that lookup followed by one
    create request; the create request is sent only after a lookup that
    failed with status 404, and it registers the key's authorized-key text
    under the name [machine-controller]. *)
Theorem ensureSSHKeysExist_requests :
  forall (L : Libs) (B : Type) (service : KeysService B) (rsa : rsa_PublicKey)
         (w : World B),
    issued w (ensureSSHKeysExist L service rsa w).2 = []
    \/ exists pk,
         ssh_NewPublicKey L rsa = (Some pk, None)
         /\ let lookup := KeysGetByFingerprint (ssh_FingerprintLegacyMD5 L pk) in
            issued w (ensureSSHKeysExist L service rsa w).2 = [lookup]
            \/ (issued w (ensureSSHKeysExist L service rsa w).2
                = [lookup; KeysCreate (keyRequest L pk)]
                /\ exists dokey r e b1,
                     Keys_GetByFingerprint service (ssh_FingerprintLegacyMD5 L pk)
                                           (backend w)
                       = ((dokey, Some r, Some e), b1)
                     /\ StatusCode r = StatusNotFound).
Proof.
  intros L B service rsa w.
  set (run := ensureSSHKeysExist L service rsa w).
  assert (Hrun : run = ensureSSHKeysExist L service rsa w) by reflexivity.
  clearbody run. unfold ensureSSHKeysExist in Hrun.
  destruct (ssh_NewPublicKey L rsa) as [pk [e|]] eqn:Hpk.
  { left. subst run. unfold issued. cbn. now rewrite drop_all. }
  destruct pk as [pk|]; cbv [bind deref ret request panic] in Hrun.
  2:{ left. subst run. unfold issued. cbn. now rewrite drop_all. }
  right. exists pk. split; [reflexivity|]. cbv zeta.
  destruct (Keys_GetByFingerprint service _ (backend w))
    as [[[dokey res] [e|]] b1] eqn:Hget.
  - destruct res as [r|].
    + destruct (Z.eqb_spec (StatusCode r) StatusNotFound) as [Hcode|Hcode].
      * right. cbn [backend now trace] in Hrun. fold (keyRequest L pk) in Hrun.
        destruct (Keys_Create service (keyRequest L pk) b1)
          as [[[created res'] err'] b2].
        split; [|eauto 10].
        destruct created; subst run; unfold issued; cbn [trace snd];
          now rewrite <- app_assoc, drop_app_length.
      * left. subst run. unfold issued. cbn [trace snd].
        now rewrite drop_app_length.
    + left. subst run. unfold issued. cbn [trace snd].
      now rewrite drop_app_length.
  - left. destruct dokey; subst run; unfold issued; cbn [trace snd];
      now rewrite drop_app_length.
Qed.

(** ** Package digitalocean: [Create] *)

Section CreateTrace.
Context (L : Libs) {B : Type} (getClient : string -> godo_Client B).

(** One run of the polled condition: one describe request for the droplet
    the create call returned; the clock moves only when the request fails,
    by the waiting period, and then the condition returns an error. *)
Lemma createCheck_outcome (client : godo_Client B) (machine : Machine)
    (created : option godo_Droplet) (w : World B) :
  let r := createCheck client machine created w in
  trace r.2 = trace w ++ repeat (DropletsGet (provisionalID created))
                                (if created is Some _ then 1 else 0)%nat
  /\ (now r.2 = now w
      \/ (now r.2 = now w + createCheckFailedWaitPeriod
          /\ exists e, r.1 = Returns (false, Some e)))
  /\ (forall ok, r.1 = Returns (ok, None) -> now r.2 = now w).
Proof.
  unfold createCheck. destruct created as [dr|]; cbv [bind deref ret panic request Sleep].
  2:{ cbn. rewrite app_nil_r. split; [reflexivity|]. split; [now left | discriminate]. }
  destruct (Droplets_Get _ _ (backend w)) as [[nd [e|]] b]; cbn.
  - split; [reflexivity|]. split; [right; eauto | discriminate].
  - destruct nd as [nd|]; cbn.
    + destruct (Has _ _); cbn; (split; [reflexivity|]); split; auto.
    + split; [reflexivity|]. split; [now left | discriminate].
Qed.

(** The poll sends one describe request for each run of its condition, at
    most one more than there are ticks, and ends at the latest one waiting
    period after the channel is closed. *)
Lemma WaitFor_createCheck (client : godo_Client B) (machine : Machine)
    (created : option godo_Droplet) (closed : Z) (ticks : list Z) :
  forall w : World B,
    Forall (fun t => t <= closed) ticks ->
    let r := WaitFor ticks closed (createCheck client machine created) w in
    (exists n, (n <= S (length ticks))%nat
               /\ trace r.2 = trace w ++ repeat (DropletsGet (provisionalID created)) n)
    /\ now w <= now r.2 <= Z.max (now w) closed + createCheckFailedWaitPeriod.
Proof.
  assert (Hwait : 0 < createCheckFailedWaitPeriod) by reflexivity.
  induction ticks as [|t later IH]; intros w Hticks; cbn [WaitFor].
  - cbv [bind sleepUntil].
    set (w2 := {| backend := backend w; now := Z.max (now w) closed; trace := trace w |}).
    destruct (createCheck_outcome client machine created w2) as (Htr & Hnow & Hok).
    destruct (createCheck client machine created w2) as [[[ok [e|]]|reason] w3];
      cbn [fst snd] in *; cbn [trace now w2] in Htr, Hnow.
    + split; [eexists; split; [|exact Htr]; destruct created; simpl; lia|].
      unfold ret. cbn [snd now]. destruct Hnow as [-> | [-> _]]; lia.
    + split; [destruct ok; eexists; (split; [|exact Htr]); destruct created; simpl; lia|].
      specialize (Hok ok eq_refl). cbn [now w2] in Hok.
      destruct ok; unfold ret; cbn [snd]; lia.
    + split; [eexists; split; [|exact Htr]; destruct created; simpl; lia|].
      cbn [snd]. destruct Hnow as [-> | [-> _]]; lia.
  - inversion Hticks as [|? ? Ht Hlater]; subst.
    cbv [bind clock]. destruct (Z.leb_spec t (now w)) as [Hle|Hgt].
    + destruct (IH w Hlater) as ((n & Hn & Htr) & Hnow).
      split; [exists n; split; [simpl; lia | exact Htr] | exact Hnow].
    + cbv [sleepUntil].
      set (w2 := {| backend := backend w; now := Z.max (now w) t; trace := trace w |}).
      destruct (createCheck_outcome client machine created w2) as (Htr & Hnow & Hok).
      destruct (createCheck client machine created w2) as [[[ok [e|]]|reason] w3];
        cbn [fst snd] in *; cbn [trace now w2] in Htr, Hnow.
      * split; [eexists; split; [|exact Htr]; destruct created; simpl; lia|].
        unfold ret. cbn [snd now]. destruct Hnow as [-> | [-> _]]; lia.
      * specialize (Hok ok eq_refl). cbn [now w2] in Hok.
        destruct ok.
        { split; [eexists; split; [|exact Htr]; destruct created; simpl; lia|].
          unfold ret; cbn [snd]; lia. }
        destruct (IH w3 Hlater) as ((n & Hn & Htr') & Hnow').
        split.
        { exists ((if created is Some _ then 1 else 0) + n)%nat. split.
          - destruct created; simpl; lia.
          - rewrite Htr', Htr, <- app_assoc. now rewrite repeat_app. }
        lia.
      * split; [eexists; split; [|exact Htr]; destruct created; simpl; lia|].
        cbn [snd]. destruct Hnow as [-> | [-> _]]; lia.
Qed.

Lemma pollTicks_before_timeout (n : Z) :
  Forall (fun t => t <= n + createCheckTimeout)
         (pollTicks n createCheckPeriod createCheckTimeout).
Proof.
  unfold pollTicks.
  change (Z.to_nat (createCheckTimeout / createCheckPeriod)) with 30%nat.
  apply Forall_forall. intros t Hin. apply list_elem_of_In in Hin.
  apply in_map_iff in Hin as (k & <- & Hk).
  apply in_seq in Hk. unfold createCheckPeriod, createCheckTimeout, Minute, Second.
  lia.
Qed.

Lemma pollTicks_length (n : Z) :
  length (pollTicks n createCheckPeriod createCheckTimeout) = 30%nat.
Proof.
  unfold pollTicks. rewrite length_map, length_seq. reflexivity.
Qed.

(** The poll of [Create]: at most 31 describe requests, and at most the
    timeout and one waiting period on the clock. *)
Lemma Poll_createCheck (client : godo_Client B) (machine : Machine)
    (created : option godo_Droplet) (w : World B) :
  let r := Poll createCheckPeriod createCheckTimeout
                (createCheck client machine created) w in
  (exists n, (n <= 31)%nat
             /\ trace r.2 = trace w ++ repeat (DropletsGet (provisionalID created)) n)
  /\ now w <= now r.2 <= now w + createCheckTimeout + createCheckFailedWaitPeriod.
Proof.
  unfold Poll. cbv [bind clock].
  destruct (WaitFor_createCheck client machine created (now w + createCheckTimeout)
              (pollTicks (now w) createCheckPeriod createCheckTimeout) w
              (pollTicks_before_timeout (now w))) as ((n & Hn & Htr) & Hnow).
  rewrite pollTicks_length in Hn.
  split; [exists n; split; [lia | exact Htr]|].
  assert (0 < createCheckTimeout) by reflexivity. lia.
Qed.
End CreateTrace.

Section CreateRun.
Context (L : Libs) {B : Type} (getClient : string -> godo_Client B).

(** The requests of [ensureSSHKeysExist] go to the key registry. *)
Lemma ensureSSHKeysExist_key_calls (service : KeysService B) (rsa : rsa_PublicKey)
    (w : World B) :
  exists calls,
    trace (ensureSSHKeysExist L service rsa w).2 = trace w ++ calls
    /\ List.filter isDescribe calls = []
    /\ List.filter isDropletsCreate calls = []
    /\ now (ensureSSHKeysExist L service rsa w).2 = now w.
Proof.
  unfold ensureSSHKeysExist.
  destruct (ssh_NewPublicKey L rsa) as [pk [e|]].
  { exists []. now rewrite app_nil_r. }
  destruct pk as [pk|]; cbv [bind deref ret request panic].
  2:{ exists []. now rewrite app_nil_r. }
  destruct (Keys_GetByFingerprint service _ (backend w)) as [[[dokey res] [e|]] b1].
  - destruct res as [res|].
    + destruct (StatusCode res =? StatusNotFound).
      * cbn [backend now trace].
        destruct (Keys_Create service _ b1) as [[[created res'] err'] b2].
        rewrite <- app_assoc. eexists.
        split; [destruct created; reflexivity|].
        repeat split; destruct created; reflexivity.
      * eexists. repeat split; reflexivity.
    + eexists. repeat split; reflexivity.
  - eexists. split; [destruct dokey; reflexivity|].
    repeat split; destruct dokey; reflexivity.
Qed.

(** [WaitFor] ends at the first panic of its condition. *)
Lemma WaitFor_first_panic (t : Z) (later : list Z) (closed : Z)
    (fn : Go (World B) (bool * option error)) (w w' : World B) (reason : string) :
  now w < t ->
  fn {| backend := backend w; now := t; trace := trace w |} = (Panics reason, w') ->
  WaitFor (t :: later) closed fn w = (Panics reason, w').
Proof.
  intros Hlt Hfn. cbn [WaitFor]. unfold bind at 1. unfold clock at 1.
  assert (Hlate : (t <=? now w) = false) by (apply Z.leb_gt; exact Hlt).
  rewrite Hlate. unfold bind at 1. unfold sleepUntil at 1.
  rewrite (Z.max_r (now w) t) by lia.
  unfold bind at 1. now rewrite Hfn.
Qed.

(** Without a droplet from the create call the first run of the polled
    condition reads [droplet.ID] through a nil pointer. *)
Lemma Poll_nil_droplet_panics (client : godo_Client B) (machine : Machine)
    (w : World B) :
  exists reason,
    (Poll createCheckPeriod createCheckTimeout (createCheck client machine None) w).1
    = Panics reason.
Proof.
  exists nilDereference.
  unfold Poll. unfold bind at 1. unfold clock at 1. rewrite pollTicks_create.
  erewrite WaitFor_first_panic; [reflexivity | | reflexivity].
  pose proof (@createCheckPeriod_pos). lia.
Qed.

(** The shape of every run of [Create]: requests to the key registry, then
    nothing more and no handle, or the one droplet create request followed
    by the describe requests of the poll. *)
Lemma Create_run (machine : Machine) (text : string) (publicKey : rsa_PublicKey)
    (w : World B) :
  let r := Create L getClient machine text publicKey w in
  now w <= now r.2 <= now w + createCheckTimeout + createCheckFailedWaitPeriod
  /\ exists kcalls,
       List.filter isDescribe kcalls = []
       /\ List.filter isDropletsCreate kcalls = []
       /\ ((trace r.2 = trace w ++ kcalls
            /\ forall i, r.1 <> Returns (Some i, None))
           \/ exists c pc slug fingerprint created n,
                getConfig L (ProviderConfig (Spec machine)) = (Some c, Some pc, None)
                /\ getSlugForOS L (pc_OperatingSystem pc) = (slug, None)
                /\ trace r.2
                   = trace w ++ kcalls
                       ++ DropletsCreate (createRequestOf machine text c slug fingerprint)
                       :: repeat (DropletsGet (provisionalID created)) n
                /\ (n <= 31)%nat
                /\ ((exists dr, created = Some dr
                                /\ r.1 = Returns (Some {| droplet := Some dr |}, None))
                    \/ (exists reason, r.1 = Panics reason)
                    \/ (exists e, r.1 = Returns (None, Some e) /\ n = 0%nat))).
Proof.
  assert (Hbound : 0 <= createCheckTimeout + createCheckFailedWaitPeriod)
    by (intros H; discriminate).
  intros r. assert (Hr : r = Create L getClient machine text publicKey w) by reflexivity.
  clearbody r. unfold Create in Hr.
  destruct (getConfig L (ProviderConfig (Spec machine))) as [[oc opc] [e0|]] eqn:Hcfg.
  { subst r. cbn. split; [lia|]. exists []. repeat split; try reflexivity.
    left. rewrite app_nil_r. split; [reflexivity | discriminate]. }
  destruct (getConfig_ok L _ _ _ Hcfg) as (c & pc & -> & ->).
  unfold bind at 1 in Hr. unfold deref at 1 in Hr. unfold ret at 1 in Hr.
  unfold bind at 1 in Hr.
  destruct (ensureSSHKeysExist_key_calls (Keys (getClient (Token c))) publicKey w)
    as (kcalls & Htrace & Hk1 & Hk2 & Hnow).
  destruct (ensureSSHKeysExist L (Keys (getClient (Token c))) publicKey w)
    as [[[fingerprint [e1|]]|reason] w1]; cbn [snd] in Htrace, Hnow.
  { subst r. cbn. split; [lia|]. exists kcalls. repeat split; try assumption.
    left. split; [assumption | discriminate]. }
  2:{ subst r. cbn. split; [lia|]. exists kcalls. repeat split; try assumption.
      left. split; [assumption | discriminate]. }
  unfold bind at 1 in Hr. unfold deref at 1 in Hr. unfold ret at 1 in Hr.
  destruct (getSlugForOS L (pc_OperatingSystem pc)) as [slug [e2|]] eqn:Hslug.
  { subst r. cbn. split; [lia|]. exists kcalls. repeat split; try assumption.
    left. split; [assumption | discriminate]. }
  fold (createRequestOf machine text c slug fingerprint) in Hr.
  unfold bind at 1 in Hr. unfold request at 1 in Hr.
  destruct (Droplets_Create _ _ (backend w1)) as [[created [e3|]] b2].
  { subst r. cbn. split; [lia|]. exists kcalls. repeat split; try assumption.
    right. exists c, pc, slug, fingerprint, created, 0%nat.
    split; [reflexivity|]. split; [exact Hslug|].
    split; [now rewrite Htrace, <- app_assoc|]. split; [lia|].
    right. right. eauto. }
  unfold bind at 1 in Hr.
  set (w2 := {| backend := b2; now := now w1;
                trace := trace w1
                           ++ [DropletsCreate (createRequestOf machine text c slug fingerprint)] |})
    in Hr.
  destruct (Poll_createCheck (getClient (Token c)) machine created w2)
    as ((n & Hn & Htr) & Hclock).
  pose proof (Poll_nil_droplet_panics (getClient (Token c)) machine w2) as Hnil.
  destruct (Poll createCheckPeriod createCheckTimeout
              (createCheck (getClient (Token c)) machine created) w2)
    as [[err|reason] w3] eqn:Hpoll; cbn [fst snd] in *; cbn [now trace w2] in *.
  - subst r. cbn [fst snd]. unfold ret. cbn [fst snd]. split; [lia|].
    exists kcalls. repeat split; try assumption.
    right. exists c, pc, slug, fingerprint, created, n.
    split; [reflexivity|]. split; [exact Hslug|].
    split; [rewrite Htr, Htrace, <- !app_assoc; reflexivity|].
    split; [assumption|].
    left. destruct created as [dr|]; [eauto|].
    rewrite Hpoll in Hnil. destruct Hnil as [reason Hnil]. discriminate.
  - subst r. cbn [fst snd]. split; [lia|].
    exists kcalls. repeat split; try assumption.
    right. exists c, pc, slug, fingerprint, created, n.
    split; [reflexivity|]. split; [exact Hslug|].
    split; [rewrite Htr, Htrace, <- !app_assoc; reflexivity|].
    split; [assumption|].
    right. left. eauto.
Qed.
End CreateRun.

Section CallFilters.
Lemma filter_describes_create (id : Z) (n : nat) :
  List.filter isDropletsCreate (repeat (DropletsGet id) n) = [].
Proof. induction n as [|n IH]; [reflexivity | exact IH]. Qed.

Lemma filter_describes_describe (id : Z) (n : nat) :
  List.filter isDescribe (repeat (DropletsGet id) n) = repeat (DropletsGet id) n.
Proof. induction n as [|n IH]; [reflexivity | simpl; now rewrite IH]. Qed.

Lemma filter_nil_not_In (f : Call -> bool) (l : list Call) (c : Call) :
  List.filter f l = [] -> f c = true -> ~ List.In c l.
Proof.
  intros Hnil Hc Hin.
  assert (Hf : List.In c (List.filter f l)) by (apply filter_In; auto).
  rewrite Hnil in Hf. destruct Hf.
Qed.
End CallFilters.

(** X18: the droplet create request.  [Create] sends at most one, and the
    one it sends is built from the machine and the decoded configuration:
    the machine's name, the bootstrap payload as it was passed in, the
    region and size of the configuration, the image of the operating
    system, and the configuration's tags followed by the machine's UID. *)
Theorem Create_droplet_request :
  forall (L : Libs) (B : Type) (getClient : string -> godo_Client B)
         (machine : Machine) (text : string) (publicKey : rsa_PublicKey)
         (w : World B) (req : godo_DropletCreateRequest),
    List.In (DropletsCreate req)
            (issued w (Create L getClient machine text publicKey w).2) ->
    List.filter isDropletsCreate
                (issued w (Create L getClient machine text publicKey w).2)
      = [DropletsCreate req]
    /\ Create_Name req = Spec_Name (Spec machine)
    /\ Create_UserData req = text
    /\ exists c pc,
         getConfig L (ProviderConfig (Spec machine)) = (Some c, Some pc, None)
         /\ Create_Region req = Region c
         /\ Create_Size req = Size c
         /\ Create_Tags req = Tags c ++ [UID machine]
         /\ getSlugForOS L (pc_OperatingSystem pc) = (Create_Image req, None).
Proof.
  intros L B getClient machine text publicKey w req.
  destruct (Create_run L getClient machine text publicKey w)
    as (_ & kcalls & Hk1 & Hk2 & Hcases).
  unfold issued.
  destruct Hcases as [[Htr _] | (c & pc & slug & fp & created & n & Hc & Hslug & Htr & _)];
    rewrite Htr, drop_app_length.
  - intros Hin. now destruct (filter_nil_not_In isDropletsCreate kcalls (DropletsCreate req) Hk2 eq_refl Hin).
  - intros Hin. apply in_app_or in Hin as [Hin | [Hin | Hin]].
    + now destruct (filter_nil_not_In isDropletsCreate kcalls (DropletsCreate req) Hk2 eq_refl Hin).
    + injection Hin as <-.
      rewrite List.filter_app, Hk2. cbn [List.filter isDropletsCreate app].
      rewrite filter_describes_create.
      split; [reflexivity|]. split; [reflexivity|]. split; [reflexivity|].
      exists c, pc. repeat split; assumption.
    + apply repeat_spec in Hin. discriminate.
Qed.

Lemma Create_droplet_request_witness :
  let req := createRequestOf machineA userdata fakeConfig "ubuntu-16-04-x64" "77" in
  List.filter isDropletsCreate
              (issued (start (account []))
                      (Create fakeLibs (memClient fakeFingerprintOf) machineA
                              userdata publicKey77 (start (account []))).2)
    = [DropletsCreate req]
  /\ Create_Name req = Spec_Name (Spec machineA)
  /\ Create_UserData req = userdata
  /\ exists c pc,
       getConfig fakeLibs (ProviderConfig (Spec machineA)) = (Some c, Some pc, None)
       /\ Create_Region req = Region c
       /\ Create_Size req = Size c
       /\ Create_Tags req = Tags c ++ [UID machineA]
       /\ getSlugForOS fakeLibs (pc_OperatingSystem pc) = (Create_Image req, None).
Proof.
  apply (Create_droplet_request fakeLibs MemBackend (memClient fakeFingerprintOf)
           machineA userdata publicKey77 (start (account []))
           (createRequestOf machineA userdata fakeConfig "ubuntu-16-04-x64" "77")).
  vm_compute. tauto.
Defined.

(** X19: the confirmation poll is bounded.  Whatever the backend answers,
    a run of [Create] sends at most 31 describe requests, and the clock
    advances by at most the timeout of 5 minutes and one waiting period of
    10 seconds; it never goes back. *)
Theorem Create_poll_is_bounded :
  forall (L : Libs) (B : Type) (getClient : string -> godo_Client B)
         (machine : Machine) (text : string) (publicKey : rsa_PublicKey)
         (w : World B),
    let r := Create L getClient machine text publicKey w in
    (length (List.filter isDescribe (issued w r.2)) <= 31)%nat
    /\ now w <= now r.2 <= now w + 5 * Minute + 10 * Second.
Proof.
  intros L B getClient machine text publicKey w r.
  destruct (Create_run L getClient machine text publicKey w)
    as (Hclock & kcalls & Hk1 & Hk2 & Hcases).
  fold r in Hclock, Hcases. split; [|exact Hclock].
  unfold issued.
  destruct Hcases as [[Htr _] | (c & pc & slug & fp & created & n & _ & _ & Htr & Hn & _)];
    rewrite Htr, drop_app_length.
  - rewrite Hk1. simpl. lia.
  - rewrite List.filter_app, Hk1. cbn [List.filter isDescribe app].
    rewrite filter_describes_describe, repeat_length. exact Hn.
Qed.

Section CreateResult.
Context (L : Libs) {B : Type} (getClient : string -> godo_Client B).

(** [Create] returns a handle or an error, never both and never neither. *)
Lemma Create_handle_xor_error (machine : Machine) (text : string)
    (publicKey : rsa_PublicKey) (w w' : World B) (i : option doInstance)
    (err : option error) :
  Create L getClient machine text publicKey w = (Returns (i, err), w') ->
  (err = None -> is_Some i) /\ (err <> None -> i = None).
Proof.
  unfold Create.
  destruct (getConfig L (ProviderConfig (Spec machine))) as [[oc opc] [e0|]].
  { intros [= <- <- _]. split; [discriminate | reflexivity]. }
  destruct oc as [c|]; [|discriminate].
  unfold bind at 1. unfold deref at 1. unfold ret at 1. unfold bind at 1.
  destruct (ensureSSHKeysExist L (Keys (getClient (Token c))) publicKey w)
    as [[[fingerprint [e1|]]|reason] w1]; [| |discriminate].
  { intros [= <- <- _]. split; [discriminate | reflexivity]. }
  destruct opc as [pc|]; [|discriminate].
  unfold bind at 1. unfold deref at 1. unfold ret at 1.
  destruct (getSlugForOS L (pc_OperatingSystem pc)) as [slug [e2|]].
  { intros [= <- <- _]. split; [discriminate | reflexivity]. }
  unfold bind at 1. unfold request at 1.
  destruct (Droplets_Create _ _ (backend w1)) as [[created [e3|]] b2].
  { intros [= <- <- _]. split; [discriminate | reflexivity]. }
  unfold bind at 1.
  destruct (Poll _ _ _ _) as [[perr|reason] w3]; [|discriminate].
  intros [= <- <- _]. split; [eauto | congruence].
Qed.

(** The polled condition reports success only for a describe reply without
    error whose droplet carries the machine's UID among its tags. *)
Lemma createCheck_done (client : godo_Client B) (machine : Machine)
    (dr : godo_Droplet) (w w' : World B) :
  createCheck client machine (Some dr) w = (Returns (true, None), w') ->
  exists nd,
    Droplets_Get (Droplets client) (Droplet_ID dr) (backend w)
      = ((Some nd, None), backend w')
    /\ Has (NewString (Droplet_Tags nd)) (UID machine) = true.
Proof.
  unfold createCheck. cbv [bind deref ret panic request Sleep].
  destruct (Droplets_Get _ _ (backend w)) as [[nd [e|]] b]; [discriminate|].
  destruct nd as [nd|]; [|discriminate]. cbn.
  destruct (Has _ _) eqn:Hhas; [|discriminate].
  intros [= <-]. eauto.
Qed.

Lemma WaitFor_confirms (client : godo_Client B) (machine : Machine)
    (dr : godo_Droplet) (closed : Z) (ticks : list Z) :
  forall w w' : World B,
    WaitFor ticks closed (createCheck client machine (Some dr)) w
      = (Returns None, w') ->
    exists w0 nd,
      Droplets_Get (Droplets client) (Droplet_ID dr) (backend w0)
        = ((Some nd, None), backend w')
      /\ Has (NewString (Droplet_Tags nd)) (UID machine) = true.
Proof.
  induction ticks as [|t later IH]; intros w w'; cbn [WaitFor].
  - cbv [bind sleepUntil].
    destruct (createCheck client machine (Some dr) _)
      as [[[ok [e|]]|reason] w3] eqn:Hcc; [discriminate| |discriminate].
    destruct ok; [|discriminate]. intros [= <-].
    destruct (createCheck_done _ _ _ _ _ Hcc) as (nd & Hget & Hhas). eauto.
  - cbv [bind clock]. destruct (t <=? now w); [apply IH|].
    cbv [sleepUntil].
    destruct (createCheck client machine (Some dr) _)
      as [[[ok [e|]]|reason] w3] eqn:Hcc; [discriminate| |discriminate].
    destruct ok; [|apply IH]. intros [= <-].
    destruct (createCheck_done _ _ _ _ _ Hcc) as (nd & Hget & Hhas). eauto.
Qed.
End CreateResult.

(** X20: what [Create] returns.  Every run that returns yields either a
    handle with a nil error, and then the handle points to the very droplet
    that the backend's create call returned, without error, for the request
    built from the machine, or no handle with an error, and then the run has
    sent no describe request: its errors come from decoding, from the key
    registration, from the operating system and from the create call. *)
Theorem Create_handle_or_error :
  forall (L : Libs) (B : Type) (getClient : string -> godo_Client B)
         (machine : Machine) (text : string) (publicKey : rsa_PublicKey)
         (w w' : World B) (r : option doInstance * option error),
    Create L getClient machine text publicKey w = (Returns r, w') ->
    (exists c pc fingerprint w1 slug dr b2,
       getConfig L (ProviderConfig (Spec machine)) = (Some c, Some pc, None)
       /\ ensureSSHKeysExist L (Keys (getClient (Token c))) publicKey w
          = (Returns (fingerprint, None), w1)
       /\ getSlugForOS L (pc_OperatingSystem pc) = (slug, None)
       /\ Droplets_Create (Droplets (getClient (Token c)))
                          (createRequestOf machine text c slug fingerprint)
                          (backend w1)
          = ((Some dr, None), b2)
       /\ r = (Some {| droplet := Some dr |}, None))
    \/ (exists e, r = (None, Some e)
                  /\ List.filter isDescribe (issued w w') = []).
Proof.
  intros L B getClient machine text publicKey w w' [i err] Hrun.
  destruct (Create_handle_xor_error L getClient _ _ _ _ _ _ _ Hrun) as [Hsome Hnone].
  destruct err as [e|].
  { right. exists e. rewrite (Hnone ltac:(discriminate)). split; [reflexivity|].
    eapply Create_error_before_poll; eassumption. }
  left. clear Hsome Hnone. revert Hrun. unfold Create.
  destruct (getConfig L (ProviderConfig (Spec machine))) as [[oc opc] [e0|]] eqn:Hcfg;
    [discriminate|].
  destruct (getConfig_ok L _ _ _ Hcfg) as (c & pc & -> & ->).
  unfold bind at 1. unfold deref at 1. unfold ret at 1. unfold bind at 1.
  destruct (ensureSSHKeysExist L (Keys (getClient (Token c))) publicKey w)
    as [[[fingerprint [e1|]]|reason] w1] eqn:Hkeys; [discriminate| |discriminate].
  unfold bind at 1. unfold deref at 1. unfold ret at 1.
  destruct (getSlugForOS L (pc_OperatingSystem pc)) as [slug [e2|]] eqn:Hslug;
    [discriminate|].
  fold (createRequestOf machine text c slug fingerprint).
  unfold bind at 1. unfold request at 1.
  destruct (Droplets_Create (Droplets (getClient (Token c)))
              (createRequestOf machine text c slug fingerprint) (backend w1))
    as [[created [e3|]] b2] eqn:Hcreate; [discriminate|].
  unfold bind at 1.
  match goal with
  | |- context [Poll ?p ?t ?cond ?w2] =>
      pose proof (Poll_nil_droplet_panics (getClient (Token c)) machine w2) as Hnil;
      destruct (Poll p t cond w2) as [[perr|reason] w3] eqn:Hpoll; [|discriminate]
  end.
  intros [= <- _].
  destruct created as [dr|].
  - exists c, pc, fingerprint, w1, slug, dr, b2. repeat split; assumption || reflexivity.
  - rewrite Hpoll in Hnil. destruct Hnil as [reason Hnil]. discriminate.
Qed.

Lemma Create_handle_or_error_witness :
  (exists c pc fingerprint w1 slug dr b2,
     getConfig fakeLibs (ProviderConfig (Spec machineA)) = (Some c, Some pc, None)
     /\ ensureSSHKeysExist fakeLibs (Keys (memClient fakeFingerprintOf (Token c)))
                           publicKey77 (start (account []))
        = (Returns (fingerprint, None), w1)
     /\ getSlugForOS fakeLibs (pc_OperatingSystem pc) = (slug, None)
     /\ Droplets_Create (Droplets (memClient fakeFingerprintOf (Token c)))
                        (createRequestOf machineA userdata c slug fingerprint)
                        (backend w1)
        = ((Some dr, None), b2)
     /\ (Some {| droplet := Some tagged |}, @None error)
        = (Some {| droplet := Some dr |}, None))
  \/ (exists e, (Some {| droplet := Some tagged |}, @None error) = (None, Some e)
                /\ List.filter isDescribe
                     (issued (start (account []))
                             (Create fakeLibs (memClient fakeFingerprintOf) machineA
                                     userdata publicKey77 (start (account []))).2) = []).
Proof.
  apply (Create_handle_or_error fakeLibs MemBackend (memClient fakeFingerprintOf)
           machineA userdata publicKey77 (start (account []))
           (Create fakeLibs (memClient fakeFingerprintOf) machineA
                   userdata publicKey77 (start (account []))).2
           (Some {| droplet := Some tagged |}, None)).
  vm_compute. reflexivity.
Defined.

(** X21: for an operating system the provider has no image for, [Create]
    sends no droplet create request and returns no handle, although the key
    registration has already run by then. *)
Theorem Create_unsupported_OS :
  forall (L : Libs) (B : Type) (getClient : string -> godo_Client B)
         (machine : Machine) (text : string) (publicKey : rsa_PublicKey)
         (w : World B) (c : config) (pc : providerconfig_Config),
    getConfig L (ProviderConfig (Spec machine)) = (Some c, Some pc, None) ->
    ~ osSupported L (pc_OperatingSystem pc) ->
    let r := Create L getClient machine text publicKey w in
    List.filter isDropletsCreate (issued w r.2) = []
    /\ (forall i, r.1 <> Returns (Some i, None)).
Proof.
  intros L B getClient machine text publicKey w c pc Hc Hos r.
  destruct (Create_run L getClient machine text publicKey w)
    as (_ & kcalls & Hk1 & Hk2 & Hcases).
  fold r in Hcases.
  destruct Hcases as [[Htr Hno] | (c' & pc' & slug & fp & created & n & Hc' & Hslug & _)].
  - split; [|exact Hno]. unfold issued. now rewrite Htr, drop_app_length.
  - rewrite Hc in Hc'. injection Hc' as <- <-.
    destruct Hos. apply getSlugForOS_supported. now rewrite Hslug.
Qed.

Lemma Create_unsupported_OS_witness :
  let r := Create centosLibs (memClient fakeFingerprintOf) machineA userdata
                  publicKey77 (start (account [])) in
  List.filter isDropletsCreate (issued (start (account [])) r.2) = []
  /\ (forall i, r.1 <> Returns (Some i, None)).
Proof.
  apply (Create_unsupported_OS centosLibs MemBackend (memClient fakeFingerprintOf)
           machineA userdata publicKey77 (start (account [])) fakeConfig
           {| pc_CloudProvider := "digitalocean";
              pc_CloudProviderSpec := ProviderConfig (Spec machineA);
              pc_OperatingSystem := "centos" |}); [reflexivity|].
  vm_compute. intros [H|H]; discriminate.
Defined.

(** X22: the poll confirms only what it has seen.  When the poll of the
    condition of [Create] ends with a nil error, whatever its period and
    timeout, the last describe request was answered without error by a
    droplet that carries the machine's UID among its tags. *)
Theorem Poll_confirms_only_tagged :
  forall (B : Type) (client : godo_Client B) (machine : Machine)
         (dr : godo_Droplet) (interval timeout : Z) (w w' : World B),
    Poll interval timeout (createCheck client machine (Some dr)) w
      = (Returns None, w') ->
    exists w0 nd,
      Droplets_Get (Droplets client) (Droplet_ID dr) (backend w0)
        = ((Some nd, None), backend w')
      /\ Has (NewString (Droplet_Tags nd)) (UID machine) = true.
Proof.
  intros B client machine dr interval timeout w w'. unfold Poll.
  unfold bind at 1. unfold clock at 1. apply WaitFor_confirms.
Qed.

Lemma Poll_confirms_only_tagged_witness :
  exists w0 nd,
    Droplets_Get (Droplets (memClient fakeFingerprintOf "secret-token"))
                 (Droplet_ID dropletA) (backend w0)
      = ((Some nd, None), account [dropletA])
    /\ Has (NewString (Droplet_Tags nd)) (UID machineA) = true.
Proof.
  apply (Poll_confirms_only_tagged MemBackend
           (memClient fakeFingerprintOf "secret-token") machineA dropletA
           createCheckPeriod createCheckTimeout (start (account [dropletA]))
           {| backend := account [dropletA]; now := createCheckPeriod;
              trace := [DropletsGet 101] |}).
  vm_compute. reflexivity.
Defined.

(** ** Package digitalocean: the instance handle *)

(** X23: the ID of a handle is the droplet's ID in decimal: [strconv.Atoi]
    reads it back without error, and handles on droplets with different IDs
    have different ID strings. *)
Theorem ID_reads_back :
  forall (S : Type) (dr dr' : godo_Droplet) (s : S),
    isInt (Droplet_ID dr) ->
    isInt (Droplet_ID dr') ->
    (exists str, ID {| droplet := Some dr |} s = (Returns str, s)
                 /\ Atoi str = (Droplet_ID dr, None))
    /\ ((ID {| droplet := Some dr |} s).1 = (ID {| droplet := Some dr' |} s).1 ->
        Droplet_ID dr = Droplet_ID dr').
Proof.
  intros S dr dr' s Hint Hint'. unfold ID. cbv [bind deref ret]. cbn [droplet fst].
  split.
  - eexists. split; [reflexivity | now apply Atoi_Itoa].
  - intros [= Heq].
    pose proof (Atoi_Itoa _ Hint) as H. pose proof (Atoi_Itoa _ Hint') as H'.
    rewrite Heq in H. congruence.
Qed.

Lemma ID_reads_back_witness :
  (exists str, ID {| droplet := Some dropletA |} tt = (Returns str, tt)
               /\ Atoi str = (101, None))
  /\ ((ID {| droplet := Some dropletA |} tt).1
      = (ID {| droplet := Some dropletB |} tt).1 -> 101 = 102).
Proof.
  apply (ID_reads_back unit dropletA dropletB tt);
    unfold isInt, minInt, maxInt; simpl; lia.
Defined.

(** ** Package digitalocean: the sizes of [Validate] *)

(** X24: the loop over the sizes stops at the first size with the requested
    slug: the sizes listed before it under other slugs and every size
    listed after it, with whatever slug, do not change the verdict. *)
Theorem validateSizes_first_match :
  forall (c : config) (before after : list godo_Size) (sz : godo_Size),
    (forall s, List.In s before -> Size_Slug s <> Size c) ->
    Size_Slug sz = Size c ->
    validateSizes c (before ++ sz :: after) = validateSizes c [sz]
    /\ validateSizes c [sz] <> inr false.
Proof.
  intros c before after sz Hbefore Hsz.
  induction before as [|s before IH]; simpl.
  - rewrite Hsz, String.eqb_refl.
    destruct (Size_Available sz); simpl; [|split; [reflexivity | discriminate]].
    destruct (existsb _ (Size_Regions sz)); simpl; split;
      reflexivity || discriminate.
  - destruct (String.eqb_spec (Size_Slug s) (Size c)) as [Heq|Hne].
    + now destruct (Hbefore s (or_introl eq_refl)).
    + apply IH. intros s' Hin. apply Hbefore. now right.
Qed.

Lemma validateSizes_first_match_witness :
  validateSizes fakeConfig
    ([ {| Size_Slug := "1gb"; Size_Available := true; Size_Regions := ["fra1"] |} ]
       ++ {| Size_Slug := "2gb"; Size_Available := false; Size_Regions := ["fra1"] |}
       :: [ {| Size_Slug := "2gb"; Size_Available := true; Size_Regions := ["fra1"] |} ])
  = validateSizes fakeConfig
      [ {| Size_Slug := "2gb"; Size_Available := false; Size_Regions := ["fra1"] |} ]
  /\ validateSizes fakeConfig
       [ {| Size_Slug := "2gb"; Size_Available := false; Size_Regions := ["fra1"] |} ]
     <> inr false.
Proof.
  apply (validateSizes_first_match fakeConfig
           [ {| Size_Slug := "1gb"; Size_Available := true; Size_Regions := ["fra1"] |} ]
           [ {| Size_Slug := "2gb"; Size_Available := true; Size_Regions := ["fra1"] |} ]
           {| Size_Slug := "2gb"; Size_Available := false; Size_Regions := ["fra1"] |}).
  - intros s [<- | []]. simpl. discriminate.
  - reflexivity.
Defined.

(** ** Package digitalocean: deleting twice, on the in-memory backend *)

Section MemDroplets.
Context (id : Z) (before : list godo_Droplet) (x : godo_Droplet).
Hypothesis Hbefore : forall y, List.In y before -> Droplet_ID y <> id.
Hypothesis Hx : Droplet_ID x = id.

Lemma findDroplet_last : findDroplet id (before ++ [x]) = Some x.
Proof using Hbefore Hx.
  unfold findDroplet. induction before as [|y l IH]; simpl.
  - now rewrite Hx, Z.eqb_refl.
  - destruct (Z.eqb_spec (Droplet_ID y) id) as [Heq|Hne].
    + now destruct (Hbefore y (or_introl eq_refl)).
    + apply IH. intros z Hz. apply Hbefore. now right.
Qed.

Lemma remove_last :
  List.filter (fun dr => negb (Droplet_ID dr =? id)) (before ++ [x]) = before.
Proof using Hbefore Hx.
  induction before as [|y l IH]; simpl.
  - now rewrite Hx, Z.eqb_refl.
  - destruct (Z.eqb_spec (Droplet_ID y) id) as [Heq|Hne]; simpl.
    + now destruct (Hbefore y (or_introl eq_refl)).
    + f_equal. apply IH. intros z Hz. apply Hbefore. now right.
Qed.
End MemDroplets.

(** X25: deleting twice.  On the in-memory backend, when the machine's
    droplet is the last one listed, the only one that carries its name and
    UID, and the only one with its ID, the first [Delete] sends one delete
    request for that ID and removes the droplet; the second [Delete] finds
    nothing, returns nil as well, and sends the listing alone. *)
Theorem Delete_twice :
  forall (L : Libs) (fingerprintOf : string -> string) (machine : Machine)
         (w : World MemBackend) (c : config) (pc : option providerconfig_Config)
         (before : list godo_Droplet) (x : godo_Droplet),
    getConfig L (ProviderConfig (Spec machine)) = (Some c, pc, None) ->
    droplets (backend w) = before ++ [x] ->
    matchesMachine machine x = true ->
    (forall y, List.In y before ->
               matchesMachine machine y = false /\ Droplet_ID y <> Droplet_ID x) ->
    isInt (Droplet_ID x) ->
    exists w1 w2,
      Delete L (memClient fingerprintOf) machine w = (Returns None, w1)
      /\ droplets (backend w1) = before
      /\ issued w w1 = [DropletsList; DropletsDelete (Droplet_ID x)]
      /\ Delete L (memClient fingerprintOf) machine w1 = (Returns None, w2)
      /\ issued w1 w2 = [DropletsList]
      /\ backend w2 = backend w1.
Proof.
  intros L fingerprintOf machine w c pc before x Hc Hds Hx Hbefore Hint.
  assert (Hids : forall y, List.In y before -> Droplet_ID y <> Droplet_ID x)
    by (intros y Hy; apply Hbefore, Hy).
  (* the first call *)
  assert (Hget : Get L (memClient fingerprintOf) machine w
                 = (Returns (Some {| droplet := Some x |}, None),
                    {| backend := backend w; now := now w;
                       trace := trace w ++ [DropletsList] |})).
  { rewrite (Get_listed L (memClient fingerprintOf) machine w c pc
               (before ++ [x]) (backend w) Hc);
      [|simpl; now rewrite Hds].
    rewrite existsb_app. simpl. rewrite Hx, orb_true_r.
    now rewrite List.last_last. }
  destruct (Delete_found L (memClient fingerprintOf) machine w _ _ x Hget eq_refl Hint)
    as (c' & pc' & Hc' & Hdel).
  rewrite Hc in Hc'. injection Hc' as <- <-.
  set (b1 := setDroplets (backend w) before (describes (backend w))).
  assert (Hdel1 : Delete L (memClient fingerprintOf) machine w
                  = (Returns None,
                     {| backend := b1; now := now w;
                        trace := (trace w ++ [DropletsList])
                                   ++ [DropletsDelete (Droplet_ID x)] |})).
  { rewrite Hdel. unfold request. cbn [backend now trace memClient Droplets
                                       memDroplets Droplets_Delete].
    unfold memDropletsDelete. rewrite Hds.
    rewrite (findDroplet_last (Droplet_ID x) before x Hids eq_refl).
    now rewrite (remove_last (Droplet_ID x) before x Hids eq_refl). }
  (* the second call *)
  set (w1 := {| backend := b1; now := now w;
                trace := (trace w ++ [DropletsList])
                           ++ [DropletsDelete (Droplet_ID x)] |}).
  assert (Hget2 : Get L (memClient fingerprintOf) machine w1
                  = (Returns (None, Some InstanceNotFoundErr),
                     {| backend := b1; now := now w1;
                        trace := trace w1 ++ [DropletsList] |})).
  { rewrite (Get_listed L (memClient fingerprintOf) machine w1 c pc before b1 Hc);
      [|reflexivity].
    assert (Hnone : existsb (matchesMachine machine) before = false).
    { destruct (existsb (matchesMachine machine) before) eqn:Hex; [|reflexivity].
      apply existsb_exists in Hex as (y & Hy & Hm).
      destruct (Hbefore y Hy) as [Hf _]. congruence. }
    now rewrite Hnone. }
  eexists w1, _. split; [exact Hdel1|]. split; [reflexivity|].
  split.
  { unfold issued, w1. cbn [trace]. now rewrite <- app_assoc, drop_app_length. }
  split; [exact (Delete_not_found L (memClient fingerprintOf) machine w1 _ None
                   InstanceNotFoundErr Hget2 eq_refl)|].
  split; [|reflexivity].
  unfold issued. cbn [trace]. now rewrite drop_app_length.
Qed.

Lemma Delete_twice_witness :
  exists w1 w2,
    Delete fakeLibs (memClient fakeFingerprintOf) machineA
           (start (account [dropletB; dropletA])) = (Returns None, w1)
    /\ droplets (backend w1) = [dropletB]
    /\ issued (start (account [dropletB; dropletA])) w1
       = [DropletsList; DropletsDelete (Droplet_ID dropletA)]
    /\ Delete fakeLibs (memClient fakeFingerprintOf) machineA w1 = (Returns None, w2)
    /\ issued w1 w2 = [DropletsList]
    /\ backend w2 = backend w1.
Proof.
  apply (Delete_twice fakeLibs fakeFingerprintOf machineA
           (start (account [dropletB; dropletA])) fakeConfig (Some ubuntuEnvelope)
           [dropletB] dropletA).
  - reflexivity.
  - reflexivity.
  - reflexivity.
  - intros y [<- | []]. split; [reflexivity | simpl; lia].
  - unfold isInt, minInt, maxInt. simpl. lia.
Defined.

(** ** Package digitalocean: the fingerprint of [ensureSSHKeysExist] *)

(** X26: the fingerprint [ensureSSHKeysExist] returns.  With an error it is
    the empty string.  With a nil error it is the fingerprint field of a key
    the registry handed back, by the lookup when that succeeded and by the
    create call after a lookup that answered 404; it is not the fingerprint
    the function computed itself. *)
Theorem ensureSSHKeysExist_fingerprint :
  forall (L : Libs) (B : Type) (service : KeysService B) (rsa : rsa_PublicKey)
         (w w' : World B) (fingerprint : string) (err : option error),
    ensureSSHKeysExist L service rsa w = (Returns (fingerprint, err), w') ->
    (err <> None -> fingerprint = "")
    /\ (err = None ->
        exists pk key,
          ssh_NewPublicKey L rsa = (Some pk, None)
          /\ fingerprint = Key_Fingerprint key
          /\ ((exists res b1,
                 Keys_GetByFingerprint service (ssh_FingerprintLegacyMD5 L pk)
                                       (backend w)
                   = ((Some key, res, None), b1))
              \/ (exists dokey r e b1 res' err',
                    Keys_GetByFingerprint service (ssh_FingerprintLegacyMD5 L pk)
                                          (backend w)
                      = ((dokey, Some r, Some e), b1)
                    /\ StatusCode r = StatusNotFound
                    /\ Keys_Create service (keyRequest L pk) b1
                       = ((Some key, res', err'), backend w')))).
Proof.
  intros L B service rsa w w' fingerprint err. unfold ensureSSHKeysExist.
  destruct (ssh_NewPublicKey L rsa) as [pk [e|]] eqn:Hpk.
  { intros [= <- <- _]. split; [reflexivity | discriminate]. }
  destruct pk as [pk|]; cbv [bind deref ret request panic]; [|discriminate].
  destruct (Keys_GetByFingerprint service _ (backend w))
    as [[[dokey res] [e|]] b1] eqn:Hget.
  - destruct res as [r|].
    + destruct (Z.eqb_spec (StatusCode r) StatusNotFound) as [Hcode|Hcode].
      * cbn [backend now trace]. fold (keyRequest L pk).
        destruct (Keys_Create service (keyRequest L pk) b1)
          as [[[created res'] err'] b2] eqn:Hcreate.
        destruct created as [key|]; [|discriminate].
        intros [= <- <- <-]. split; [congruence|]. intros _.
        exists pk, key. split; [reflexivity|]. split; [reflexivity|].
        right. exists dokey, r, e, b1, res', err'. cbn [backend]. auto.
      * intros [= <- <- _]. split; [reflexivity | discriminate].
    + intros [= <- <- _]. split; [reflexivity | discriminate].
  - destruct dokey as [key|]; [|discriminate].
    intros [= <- <- _]. split; [congruence|]. intros _.
    exists pk, key. split; [reflexivity|]. split; [reflexivity|].
    left. eauto.
Qed.

Lemma ensureSSHKeysExist_fingerprint_witness :
  ((None : option error) <> None -> "aa:bb" = "")
  /\ ((None : option error) = None ->
      exists pk key,
        ssh_NewPublicKey fakeLibs publicKey77 = (Some pk, None)
        /\ "aa:bb" = Key_Fingerprint key
        /\ ((exists res b1,
               Keys_GetByFingerprint (failingKeys (Some staleKey))
                                     (ssh_FingerprintLegacyMD5 fakeLibs pk)
                                     (backend (start tt))
                 = ((Some key, res, None), b1))
            \/ (exists dokey r e b1 res' err',
                  Keys_GetByFingerprint (failingKeys (Some staleKey))
                                        (ssh_FingerprintLegacyMD5 fakeLibs pk)
                                        (backend (start tt))
                    = ((dokey, Some r, Some e), b1)
                  /\ StatusCode r = StatusNotFound
                  /\ Keys_Create (failingKeys (Some staleKey)) (keyRequest fakeLibs pk) b1
                     = ((Some key, res', err'), tt)))).
Proof.
  apply (ensureSSHKeysExist_fingerprint fakeLibs unit (failingKeys (Some staleKey))
           publicKey77 (start tt)
           {| backend := tt; now := 0;
              trace := [KeysGetByFingerprint "77";
                        KeysCreate {| KeyCreate_Name := "machine-controller";
                                      KeyCreate_PublicKey := "77" |}] |}
           "aa:bb" None).
  reflexivity.
Defined.
